(** * mitemp_bt: a shallow embedding of [MiTempBtPoller] (mitemp_bt/__init__.py)

    Python values are modelled as follows:
    - a [str] is its list of code points ([list Z]);
    - [bytes] is [list Byte.byte];
    - [datetime] / [timedelta] are integer seconds ([Z]);
    - the result dict of [_parse_data] is an association list kept in
      insertion order, as a Python dict is;
    - Python [float] values, [float(s)] and the comparison [x > n] are
      left abstract (Section variables), so every theorem holds for any
      model of IEEE parsing; [str.isprintable] is exact on ASCII and
      abstract above it;
    - the Bluetooth backend (btlewrap) is an oracle answering the n-th
      I/O operation, and the poller's effects are a state/exception monad. *)

From Stdlib Require Import ZArith List String Ascii Bool Lia QArith.
From Stdlib.Strings Require Byte.
Import ListNotations.
Open Scope list_scope.
Open Scope Z_scope.

(** ** Python exceptions *)

Inductive exn : Type :=
| BluetoothBackendException (msg : list Z)
| AttributeError
| KeyError
| IndexError
| ValueError
| TypeError
| UnicodeDecodeError.

Inductive result (A : Type) : Type :=
| Ok (a : A)
| Exc (e : exn).
Arguments Ok {A} a.
Arguments Exc {A} e.

(** ** Python strings *)

(** A Python string literal of ASCII characters, as code points. *)
Definition str_of (s : string) : list Z :=
  map (fun a => Z.of_nat (nat_of_ascii a)) (list_ascii_of_string s).

Fixpoint str_eqb (a b : list Z) : bool :=
  match a, b with
  | [], [] => true
  | x :: a', y :: b' => Z.eqb x y && str_eqb a' b'
  | _, _ => false
  end.

(** [s.split(sep)] for a one-character separator [sep]. *)
Fixpoint py_split (sep : Z) (s : list Z) : list (list Z) :=
  match s with
  | [] => [[]]
  | c :: s' =>
      let r := py_split sep s' in
      if Z.eqb c sep then [] :: r
      else match r with
           | w :: ws => (c :: w) :: ws
           | [] => [[c]]
           end
  end.

(** [sep.join(ws)]: the inverse view of [py_split]. *)
Fixpoint py_join (sep : Z) (ws : list (list Z)) : list Z :=
  match ws with
  | [] => []
  | [w] => w
  | w :: ws' => w ++ sep :: py_join sep ws'
  end.

Fixpoint lstrip (cs : list Z) (s : list Z) : list Z :=
  match s with
  | [] => []
  | c :: s' => if existsb (Z.eqb c) cs then lstrip cs s' else s
  end.

(** [s.strip(cs)]: drop characters of [cs] at both ends. *)
Definition py_strip (cs : list Z) (s : list Z) : list Z :=
  rev (lstrip cs (rev (lstrip cs s))).

(** ** bytes.decode("utf-8") (strict) *)

Definition in_range (lo hi b : Z) : bool := (lo <=? b) && (b <=? hi).
Definition cont (b : Z) : bool := in_range 128 191 b.

Fixpoint utf8_decode_Z (bs : list Z) : option (list Z) :=
  match bs with
  | [] => Some []
  | b0 :: r0 =>
      if b0 <? 128 then option_map (cons b0) (utf8_decode_Z r0)
      else if in_range 194 223 b0 then
        match r0 with
        | b1 :: r1 =>
            if cont b1
            then option_map (cons (Z.lor (Z.shiftl (Z.land b0 31) 6) (Z.land b1 63)))
                   (utf8_decode_Z r1)
            else None
        | [] => None
        end
      else if in_range 224 239 b0 then
        match r0 with
        | b1 :: b2 :: r2 =>
            let ok1 := if Z.eqb b0 224 then in_range 160 191 b1
                       else if Z.eqb b0 237 then in_range 128 159 b1
                       else cont b1 in
            if ok1 && cont b2
            then option_map
                   (cons (Z.lor (Z.shiftl (Z.land b0 15) 12)
                            (Z.lor (Z.shiftl (Z.land b1 63) 6) (Z.land b2 63))))
                   (utf8_decode_Z r2)
            else None
        | _ => None
        end
      else if in_range 240 244 b0 then
        match r0 with
        | b1 :: b2 :: b3 :: r3 =>
            let ok1 := if Z.eqb b0 240 then in_range 144 191 b1
                       else if Z.eqb b0 244 then in_range 128 143 b1
                       else cont b1 in
            if ok1 && cont b2 && cont b3
            then option_map
                   (cons (Z.lor (Z.shiftl (Z.land b0 7) 18)
                            (Z.lor (Z.shiftl (Z.land b1 63) 12)
                               (Z.lor (Z.shiftl (Z.land b2 63) 6) (Z.land b3 63)))))
                   (utf8_decode_Z r3)
            else None
        | _ => None
        end
      else None
  end.

Definition bytes := list Byte.byte.
Definition byte_val (b : Byte.byte) : Z := Z.of_N (Byte.to_N b).

(** The bytes of an ASCII text. *)
Definition bytes_of (s : string) : bytes := map byte_of_ascii (list_ascii_of_string s).

(** [raw.decode("utf-8")]; [None] is [UnicodeDecodeError]. *)
Definition utf8_decode (raw : bytes) : option (list Z) :=
  utf8_decode_Z (map byte_val raw).

(** ** The queryable parameters *)

Inductive MiTempParameter : Type :=
| TEMPERATURE
| HUMIDITY
| BATTERY.

Definition param_eqb (a b : MiTempParameter) : bool :=
  match a, b with
  | TEMPERATURE, TEMPERATURE | HUMIDITY, HUMIDITY | BATTERY, BATTERY => true
  | _, _ => false
  end.

(** Attribute lookup on the Enum class: [MiTempParameter.<name>];
    an unknown member name raises [AttributeError]. *)
Definition MiTempParameter_attr (name : string) : result MiTempParameter :=
  if String.eqb name "TEMPERATURE" then Ok TEMPERATURE
  else if String.eqb name "HUMIDITY" then Ok HUMIDITY
  else if String.eqb name "BATTERY" then Ok BATTERY
  else Exc AttributeError.

Definition _HANDLE_READ_BATTERY_LEVEL : Z := 24.       (* 0x0018 *)
Definition _HANDLE_READ_FIRMWARE_VERSION : Z := 36.    (* 0x0024 *)
Definition _HANDLE_READ_NAME : Z := 3.                 (* 0x03 *)
Definition _HANDLE_READ_WRITE_SENSOR_DATA : Z := 16.   (* 0x0010 *)

(** ** Hexadecimal formatting: [hex(n)], [format(c, "02x")], [str.upper] *)

(** The lowercase hexadecimal digit of [0 <= d < 16]. *)
Definition hex_digit (d : Z) : Z := if d <? 10 then 48 + d else 87 + d.

(** The hexadecimal digits of [n >= 0], least significant first; [fuel]
    bounds the number of digits. *)
Fixpoint hex_digits_rev (fuel : nat) (n : Z) : list Z :=
  match fuel with
  | O => []
  | S f => if n <? 16 then [hex_digit n]
           else hex_digit (n mod 16) :: hex_digits_rev f (n / 16)
  end.

Definition hex_digits (n : Z) : list Z := rev (hex_digits_rev (S (Z.to_nat n)) n).

(** [hex(n)] *)
Definition py_hex (n : Z) : list Z :=
  if n <? 0 then str_of "-0x" ++ hex_digits (- n) else str_of "0x" ++ hex_digits n.

(** [format(c, "02x")] for [c >= 0]: lowercase, zero-padded to width 2. *)
Definition format_02x (c : Z) : list Z :=
  let ds := hex_digits c in
  if (List.length ds <? 2)%nat then 48 :: ds else ds.

(** [s.upper()] on ASCII text (the only text it is applied to here). *)
Definition py_upper (s : list Z) : list Z :=
  map (fun c => if in_range 97 122 c then c - 32 else c) s.

(** [MiTempBtPoller._format_bytes(raw_data)] (lines 198-203). *)
Definition _format_bytes (raw_data : option bytes) : list Z :=
  match raw_data with
  | None => str_of "None"
  | Some raw => py_upper (py_join 32 (map (fun c => format_02x (byte_val c)) raw))
  end.

(** ** Poller state *)

Record MiTempBtPoller : Type := mkPoller {
  _mac : list Z;
  _cache : option (list Z);
  _cache_timeout : Z;
  _last_read : option Z;
  _fw_last_read : option Z;
  ble_timeout : Z;
  _firmware_version : option (list Z);
  battery : option Z
}.

(** [MiTempBtPoller(mac, backend, cache_timeout)]. *)
Definition init_poller (mac : list Z) (cache_timeout : Z) : MiTempBtPoller :=
  mkPoller mac None cache_timeout None None 10 None None.

Definition set_cache (c : option (list Z)) (p : MiTempBtPoller) : MiTempBtPoller :=
  mkPoller (_mac p) c (_cache_timeout p) (_last_read p) (_fw_last_read p)
    (ble_timeout p) (_firmware_version p) (battery p).
Definition set_last_read (t : option Z) (p : MiTempBtPoller) : MiTempBtPoller :=
  mkPoller (_mac p) (_cache p) (_cache_timeout p) t (_fw_last_read p)
    (ble_timeout p) (_firmware_version p) (battery p).
Definition set_fw_last_read (t : option Z) (p : MiTempBtPoller) : MiTempBtPoller :=
  mkPoller (_mac p) (_cache p) (_cache_timeout p) (_last_read p) t
    (ble_timeout p) (_firmware_version p) (battery p).
Definition set_firmware_version (v : option (list Z)) (p : MiTempBtPoller) : MiTempBtPoller :=
  mkPoller (_mac p) (_cache p) (_cache_timeout p) (_last_read p) (_fw_last_read p)
    (ble_timeout p) v (battery p).
Definition set_battery (b : option Z) (p : MiTempBtPoller) : MiTempBtPoller :=
  mkPoller (_mac p) (_cache p) (_cache_timeout p) (_last_read p) (_fw_last_read p)
    (ble_timeout p) (_firmware_version p) b.

Definition cache_available (p : MiTempBtPoller) : bool :=
  match _cache p with Some _ => true | None => false end.

(** ** The world: poller, clock ([datetime.now()]) and the I/O trace *)

Inductive action : Type :=
| ActConnect
| ActDisconnect
| ActRead (handle : Z)
| ActWait (handle : Z)
| ActLock
| ActUnlock.

Record World : Type := mkWorld {
  poller : MiTempBtPoller;
  clock : Z;
  trace : list action
}.

(** The Bluetooth backend, answering the n-th operation of the trace:
    [connect_reply n = Some msg] makes the connection raise
    [BluetoothBackendException(msg)]; [read_reply n h] is what
    [read_handle(h)] returns or raises; [wait_reply n] lists the payloads
    the backend hands to [handleNotification] before
    [wait_for_notification] returns ([None]) or raises ([Some msg]);
    [op_duration n] is the time the operation takes. *)
Record Backend : Type := mkBackend {
  connect_reply : nat -> option (list Z);
  read_reply : nat -> Z -> result (option bytes);
  wait_reply : nat -> list (option bytes) * option (list Z);
  op_duration : nat -> Z
}.

(** ** A state and exception monad *)

Definition M (A : Type) : Type := World -> result A * World.

Definition ret {A : Type} (a : A) : M A := fun w => (Ok a, w).

Definition bind {A B : Type} (m : M A) (k : A -> M B) : M B :=
  fun w => match m w with
           | (Ok a, w') => k a w'
           | (Exc e, w') => (Exc e, w')
           end.

Notation "x <- m ;; k" := (bind m (fun x => k))
  (at level 61, m at next level, right associativity).
Notation "m ;;; k" := (bind m (fun _ => k))
  (at level 61, right associativity).

Definition raise {A : Type} (e : exn) : M A := fun w => (Exc e, w).

Definition lift {A : Type} (r : result A) : M A := fun w => (r, w).

Definition get_p : M MiTempBtPoller := fun w => (Ok (poller w), w).

Definition modify (f : MiTempBtPoller -> MiTempBtPoller) : M unit :=
  fun w => (Ok tt, mkWorld (f (poller w)) (clock w) (trace w)).

(** [datetime.now()] *)
Definition now : M Z := fun w => (Ok (clock w), w).

(** [try: m  except BluetoothBackendException: h] *)
Definition try_bbe {A : Type} (m : M A) (h : list Z -> M A) : M A :=
  fun w => match m w with
           | (Exc (BluetoothBackendException msg), w') => h msg w'
           | r => r
           end.

(** [try: m  finally: f] *)
Definition finally {A : Type} (m : M A) (f : M unit) : M A :=
  fun w => match m w with
           | (r, w') => match f w' with
                        | (Ok _, w'') => (r, w'')
                        | (Exc e, w'') => (Exc e, w'')
                        end
           end.

Fixpoint iter_m {A : Type} (f : A -> M unit) (l : list A) : M unit :=
  match l with
  | [] => ret tt
  | x :: l' => f x ;;; iter_m f l'
  end.

Section Poller.

(** Python floats, [float(s)] ([None]: ValueError) and [x > n]. *)
Variable F : Type.
Variable py_float : list Z -> option F.
Variable float_gt : F -> Z -> bool.
(** [str.isprintable] for code points >= 128 (Unicode database). *)
Variable unicode_printable : Z -> bool.

Definition py_isprintable (c : Z) : bool :=
  if c <? 128 then in_range 32 126 c else unicode_printable c.

(** ** The result dict of [_parse_data] *)

Definition pydict := list (MiTempParameter * F).

Fixpoint dict_set (k : MiTempParameter) (v : F) (d : pydict) : pydict :=
  match d with
  | [] => [(k, v)]
  | (k', v') :: d' =>
      if param_eqb k k' then (k, v) :: d' else (k', v') :: dict_set k v d'
  end.

Fixpoint dict_get (k : MiTempParameter) (d : pydict) : option F :=
  match d with
  | [] => None
  | (k', v) :: d' => if param_eqb k k' then Some v else dict_get k d'
  end.

(** [d[k]]: a missing key raises [KeyError]. *)
Definition dict_index (d : pydict) (k : MiTempParameter) : result F :=
  match dict_get k d with Some v => Ok v | None => Exc KeyError end.

(** ** _parse_data *)

(** One iteration of the loop body: [dataparts = dataitem.split("=")]. *)
Definition parse_item (res : pydict) (dataitem : list Z) : result pydict :=
  match py_split 61 dataitem with
  | [] => Exc IndexError
  | part0 :: rest =>
      if str_eqb part0 (str_of "T") then
        match rest with
        | [] => Exc IndexError
        | v :: _ => match py_float v with
                    | Some x => Ok (dict_set TEMPERATURE x res)
                    | None => Exc ValueError
                    end
        end
      else if str_eqb part0 (str_of "H") then
        match rest with
        | [] => Exc IndexError
        | v :: _ => match py_float v with
                    | Some x => Ok (dict_set HUMIDITY x res)
                    | None => Exc ValueError
                    end
        end
      else Ok res
  end.

Fixpoint parse_items (res : pydict) (items : list (list Z)) : result pydict :=
  match items with
  | [] => Ok res
  | it :: its =>
      match parse_item res it with
      | Ok res' => parse_items res' its
      | Exc e => Exc e
      end
  end.

(** The body of [_parse_data] on the string [self._cache]. *)
Definition parse_data_str (data : list Z) : result pydict :=
  let data := py_strip [0] data in
  let data := filter py_isprintable data in
  parse_items [] (py_split 32 data).

(** ** Poller methods *)

Variable be : Backend.

(** One backend operation: logged in the trace, taking its time. *)
Definition io (a : action) : M nat :=
  fun w => let n := List.length (trace w) in
           (Ok n, mkWorld (poller w) (clock w + op_duration be n) (app (trace w) [a])).

(** [with self._bt_interface.connect(self._mac) as connection: body] *)
Definition with_connection {A : Type} (body : M A) : M A :=
  n <- io ActConnect ;;
  match connect_reply be n with
  | Some msg => raise (BluetoothBackendException msg)
  | None => finally body (io ActDisconnect ;;; ret tt)
  end.

(** [connection.read_handle(handle)] *)
Definition read_handle (handle : Z) : M (option bytes) :=
  n <- io (ActRead handle) ;; lift (read_reply be n handle).

(** [connection.wait_for_notification(handle, delegate, timeout)]: the
    backend calls [delegate.handleNotification] on each payload it
    receives; exceptions of the delegate propagate. *)
Definition wait_for_notification (handle : Z)
    (delegate : Z -> option bytes -> M unit) : M unit :=
  n <- io (ActWait handle) ;;
  let '(notifs, fail) := wait_reply be n in
  iter_m (delegate handle) notifs ;;;
  match fail with
  | None => ret tt
  | Some msg => raise (BluetoothBackendException msg)
  end.

(** [with self.lock: body] *)
Definition with_lock {A : Type} (body : M A) : M A :=
  io ActLock ;;; finally body (io ActUnlock ;;; ret tt).

(** [int(ord(res_battery))]: [ord] of a bytes object of length 1. *)
Definition py_ord (b : bytes) : M Z :=
  match b with
  | [x] => ret (byte_val x)
  | _ => raise TypeError
  end.

(** [self._last_read = datetime.now() - self._cache_timeout + timedelta(seconds=300)],
    the statement repeated in [fill_cache] and [handleNotification]. *)
Definition retry_in_5_minutes : M unit :=
  t <- now ;;
  modify (fun p => set_last_read (Some (t - _cache_timeout p + 300)) p).

Definition firmware_version : M (option (list Z)) :=
  p <- get_p ;;
  need <- match _firmware_version p with
          | None => ret true
          | Some _ =>
              t <- now ;;
              match _fw_last_read p with
              | None => raise TypeError
              | Some l => ret (l <? t - 86400)
              end
          end ;;
  if need then
    t <- now ;;
    modify (set_fw_last_read (Some t)) ;;;
    r <- with_connection
           (res_firmware <- read_handle _HANDLE_READ_FIRMWARE_VERSION ;;
            res_battery <- read_handle _HANDLE_READ_BATTERY_LEVEL ;;
            ret (res_firmware, res_battery)) ;;
    let '(res_firmware, res_battery) := r in
    match res_firmware with
    | None => modify (set_firmware_version None)
    | Some b => match utf8_decode b with
                | Some s => modify (set_firmware_version (Some s))
                | None => raise UnicodeDecodeError
                end
    end ;;;
    match res_battery with
    | None => modify (set_battery (Some 0))
    | Some b => v <- py_ord b ;; modify (set_battery (Some v))
    end ;;;
    p' <- get_p ;; ret (_firmware_version p')
  else ret (_firmware_version p).

Definition battery_level : M (option Z) :=
  firmware_version ;;; p <- get_p ;; ret (battery p).

Definition clear_cache : M unit :=
  modify (set_cache None) ;;; modify (set_last_read None).

Definition _parse_data : M pydict :=
  p <- get_p ;;
  match _cache p with
  | None => raise AttributeError   (* None.strip *)
  | Some data => lift (parse_data_str data)
  end.

(** [_check_data]: the debug log line evaluates [parsed[TEMPERATURE]] and
    [parsed[HUMIDITY]] before the range check. *)
Definition _check_data : M unit :=
  p <- get_p ;;
  if negb (cache_available p) then ret tt
  else
    parsed <- _parse_data ;;
    lift (dict_index parsed TEMPERATURE) ;;;
    lift (dict_index parsed HUMIDITY) ;;;
    h <- lift (dict_index parsed HUMIDITY) ;;
    if float_gt h 100 then clear_cache else ret tt.

Definition handleNotification (handle : Z) (raw_data : option bytes) : M unit :=
  match raw_data with
  | None => ret tt
  | Some raw =>
      match utf8_decode raw with
      | None => raise UnicodeDecodeError
      | Some s =>
          modify (set_cache (Some (py_strip [32; 10; 9] s))) ;;;
          _check_data ;;;
          p <- get_p ;;
          if cache_available p then t <- now ;; modify (set_last_read (Some t))
          else retry_in_5_minutes
      end
  end.

Definition fill_cache : M unit :=
  try_bbe (firmware_version ;;; ret tt)
          (fun msg => retry_in_5_minutes ;;; raise (BluetoothBackendException msg)) ;;;
  with_connection
    (try_bbe (wait_for_notification _HANDLE_READ_WRITE_SENSOR_DATA handleNotification)
             (fun _ => retry_in_5_minutes)).

(** The staleness test of [parameter_value] (lines 132-136). *)
Definition cache_expired (read_cached : bool) (p : MiTempBtPoller) (t : Z) : bool :=
  negb read_cached ||
  match _last_read p with
  | None => true
  | Some l => l <? t - _cache_timeout p
  end.

(** [parameter_value], lines 130-139: the cache-or-refresh step. *)
Definition parameter_value_refresh (read_cached : bool) : M unit :=
  with_lock (p <- get_p ;; t <- now ;;
             if cache_expired read_cached p t then fill_cache else ret tt).

(** [parameter_value], lines 141-143. *)
Definition parameter_value_serve (parameter : MiTempParameter) : M F :=
  p <- get_p ;;
  if cache_available p then
    parsed <- _parse_data ;; lift (dict_index parsed parameter)
  else raise (BluetoothBackendException
                (app (str_of "Could not read data from Mi Temp sensor ") (_mac p))).

(** What [parameter_value] returns: a float, or [self.battery]. *)
Inductive pyval : Type :=
| PyFloat (x : F)
| PyInt (z : Z)
| PyNone.

(** [parameter_value], lines 130-143, for a non-battery parameter. *)
Definition parameter_value_body (parameter : MiTempParameter) (read_cached : bool) : M F :=
  parameter_value_refresh read_cached ;;; parameter_value_serve parameter.

(** [parameter_value]; line 127 reads [MiTempParameter.MI_BATTERY]. *)
Definition parameter_value (parameter : MiTempParameter) (read_cached : bool) : M pyval :=
  battery_param <- lift (MiTempParameter_attr "MI_BATTERY") ;;
  if param_eqb parameter battery_param then
    v <- battery_level ;;
    ret (match v with Some z => PyInt z | None => PyNone end)
  else
    x <- parameter_value_body parameter read_cached ;;
    ret (PyFloat x).

(** [name()] (lines 52-62): the read happens inside the connection, the
    check after it is closed; [chr(n) for n in name] maps each byte to the
    code point of its value. *)
Definition name : M (list Z) :=
  res <- with_connection (read_handle _HANDLE_READ_NAME) ;;
  p <- get_p ;;
  match res with
  | None | Some [] =>
      raise (BluetoothBackendException
               (app (str_of "Could not read NAME using handle ")
                  (app (py_hex _HANDLE_READ_NAME)
                     (app (str_of " from Mi Temp sensor ") (_mac p)))))
  | Some bs => ret (map byte_val bs)
  end.

End Poller.

(** ** A concrete instance for examples

    [float(s)] on plain decimal literals ([+|-] digits [. digits]), as
    exact rationals; [x > n] on rationals; every code point above ASCII
    printable.  On the literals used below this agrees with Python. *)

Definition is_digit (c : Z) : bool := in_range 48 57 c.

Fixpoint digits_value (acc : Z) (s : list Z) : Z :=
  match s with
  | [] => acc
  | c :: s' => digits_value (acc * 10 + (c - 48)) s'
  end.

Definition dec_unsigned (s : list Z) : option Q :=
  match py_split 46 s with
  | [ip] =>
      if forallb is_digit ip && negb (Nat.eqb (List.length ip) 0)
      then Some (inject_Z (digits_value 0 ip)) else None
  | [ip; fp] =>
      if forallb is_digit ip && forallb is_digit fp
         && negb (Nat.eqb (List.length ip + List.length fp) 0)
      then Some (Qmake (digits_value 0 (app ip fp))
                       (Z.to_pos (10 ^ Z.of_nat (List.length fp))))
      else None
  | _ => None
  end.

Definition dec_float (s : list Z) : option Q :=
  match s with
  | 45 :: s' => option_map Qopp (dec_unsigned s')
  | 43 :: s' => dec_unsigned s'
  | _ => dec_unsigned s
  end.

Definition q_gt (x : Q) (n : Z) : bool := negb (Qle_bool x (inject_Z n)).

Definition all_printable (c : Z) : bool := true.

(** A backend whose connections and reads succeed instantly, reads
    returning [None] and notification waits returning without data. *)
Definition quiet_backend : Backend :=
  mkBackend (fun _ => None) (fun _ _ => Ok None) (fun _ => ([], None)) (fun _ => 0).

(** A backend answering the firmware read with [b"1.0"] and the battery
    read with the single byte [0xc8] (200). *)
Definition battery_200_backend : Backend :=
  mkBackend (fun _ => None)
    (fun _ h => if Z.eqb h _HANDLE_READ_FIRMWARE_VERSION then Ok (Some (bytes_of "1.0"))
                else Ok (Some [Byte.xc8]))
    (fun _ => ([], None)) (fun _ => 1).

(** A backend whose attribute reads all fail with a
    [BluetoothBackendException]. *)
Definition read_failure_backend : Backend :=
  mkBackend (fun _ => None)
    (fun _ _ => Exc (BluetoothBackendException (str_of "read failed")))
    (fun _ => ([], None)) (fun _ => 0).


(** ** Helpers for stating properties *)

Definition has_char (c : Z) (s : list Z) : bool := existsb (Z.eqb c) s.

(** A token whose key (the text before the first [=]) is neither [T] nor [H]. *)
Definition unrecognized (tok : list Z) : bool :=
  match py_split 61 tok with
  | part0 :: _ => negb (str_eqb part0 (str_of "T")) && negb (str_eqb part0 (str_of "H"))
  | [] => false
  end.

(** The example of the [_parse_data] docstring:
    [54 3d 32 35 2e 36 20 48 3d 32 33 2e 36 00 -> T=25.6 H=23.6]. *)
Definition docstring_payload : bytes :=
  [Byte.x54; Byte.x3d; Byte.x32; Byte.x35; Byte.x2e; Byte.x36; Byte.x20;
   Byte.x48; Byte.x3d; Byte.x32; Byte.x33; Byte.x2e; Byte.x36; Byte.x00].

(** The invariant that makes the 24-hour comparison of [firmware_version]
    well defined: a cached firmware version has a fetch time. *)
Definition fw_inv (p : MiTempBtPoller) : Prop :=
  _firmware_version p <> None -> _fw_last_read p <> None.

(** The fields of the poller that the firmware/battery path uses. *)
Definition fw_fields (p : MiTempBtPoller) : option Z * option (list Z) * option Z :=
  (_fw_last_read p, _firmware_version p, battery p).

(** An operation keeps a property of the poller, whatever its outcome. *)
Definition keeps (P : MiTempBtPoller -> Prop) {A : Type} (m : M A) : Prop :=
  forall w, P (poller w) -> P (poller (snd (m w))).

(** The states a program using the poller can reach: construction, time
    passing, and any call of a public method or of the notification
    callback, whatever its outcome (an exception may be caught by the
    caller). *)
Inductive reachable (F : Type) (py_float : list Z -> option F)
    (float_gt : F -> Z -> bool) (up : Z -> bool) (be : Backend) : World -> Prop :=
| reach_init : forall mac cache_timeout t tr,
    reachable F py_float float_gt up be (mkWorld (init_poller mac cache_timeout) t tr)
| reach_time : forall w t, reachable F py_float float_gt up be w -> clock w <= t ->
    reachable F py_float float_gt up be (mkWorld (poller w) t (trace w))
| reach_firmware_version : forall w, reachable F py_float float_gt up be w ->
    reachable F py_float float_gt up be (snd (firmware_version be w))
| reach_battery_level : forall w, reachable F py_float float_gt up be w ->
    reachable F py_float float_gt up be (snd (battery_level be w))
| reach_name : forall w, reachable F py_float float_gt up be w ->
    reachable F py_float float_gt up be (snd (name be w))
| reach_clear_cache : forall w, reachable F py_float float_gt up be w ->
    reachable F py_float float_gt up be (snd (clear_cache w))
| reach_handleNotification : forall h raw w, reachable F py_float float_gt up be w ->
    reachable F py_float float_gt up be
      (snd (handleNotification F py_float float_gt up h raw w))
| reach_parameter_value : forall prm rc w, reachable F py_float float_gt up be w ->
    reachable F py_float float_gt up be
      (snd (parameter_value F py_float float_gt up be prm rc w))
| reach_parameter_value_body : forall prm rc w, reachable F py_float float_gt up be w ->
    reachable F py_float float_gt up be
      (snd (parameter_value_body F py_float float_gt up be prm rc w)).

(** The characters [_format_bytes] may produce for a byte string. *)
Definition upper_hex_or_space (c : Z) : bool :=
  existsb (Z.eqb c) (str_of "0123456789ABCDEF ").

(** A battery level read by [firmware_version] is an unsigned byte. *)
Definition bat_inv (p : MiTempBtPoller) : Prop :=
  forall b, battery p = Some b -> 0 <= b <= 255.

(** The outcome is a [BluetoothBackendException], the only exception the
    [except] clauses of [fill_cache] catch. *)
Definition is_bbe {A : Type} (r : result A) : bool :=
  match r with Exc (BluetoothBackendException _) => true | _ => false end.

(** A backend whose connections all fail. *)
Definition connect_failure_backend : Backend :=
  mkBackend (fun _ => Some (str_of "connect failed")) (fun _ _ => Ok None)
    (fun _ => ([], None)) (fun _ => 0).

(** A poller holding firmware ["1.0"] fetched at time 0 and battery 50. *)
Definition fetched_poller : MiTempBtPoller :=
  set_battery (Some 50)
    (set_firmware_version (Some (str_of "1.0"))
       (set_fw_last_read (Some 0) (init_poller [] 600))).

(** The dicts [_parse_data] can return: each key once, and only the
    temperature and humidity keys. *)
Definition th_dict {F : Type} (d : pydict F) : Prop :=
  NoDup (map fst d) /\ forall k, In k (map fst d) -> k = TEMPERATURE \/ k = HUMIDITY.

(** * Lemmas on strings and decoding *)

Lemma py_split_nonempty : forall sep s, py_split sep s <> [].
Proof.
  intros sep s; induction s as [|c s IH]; simpl; [discriminate|].
  destruct (Z.eqb c sep); [discriminate|].
  destruct (py_split sep s); discriminate.
Qed.

Lemma py_split_no_sep : forall sep w rest,
  has_char sep w = false ->
  py_split sep (w ++ rest) =
  match py_split sep rest with
  | v :: vs => (w ++ v) :: vs
  | [] => [w]
  end.
Proof.
  intros sep w rest; induction w as [|c w IH]; intros Hw; simpl.
  - destruct (py_split sep rest) eqn:E;
      [exfalso; exact (py_split_nonempty _ _ E)|reflexivity].
  - simpl in Hw. apply orb_false_iff in Hw as [Hc Hw].
    rewrite Z.eqb_sym in Hc. rewrite Hc, (IH Hw).
    destruct (py_split sep rest) eqn:E; [exfalso; exact (py_split_nonempty _ _ E)|].
    reflexivity.
Qed.

Lemma py_split_single : forall sep w, has_char sep w = false -> py_split sep w = [w].
Proof.
  intros sep w Hw. rewrite <- (app_nil_r w) at 1.
  rewrite (py_split_no_sep sep w [] Hw). simpl. rewrite app_nil_r. reflexivity.
Qed.

Lemma py_split_join : forall sep ws,
  ws <> [] -> forallb (fun w => negb (has_char sep w)) ws = true ->
  py_split sep (py_join sep ws) = ws.
Proof.
  intros sep ws; induction ws as [|w ws IH]; intros Hne Hall; [congruence|].
  simpl in Hall. apply andb_true_iff in Hall as [Hw Hall].
  apply negb_true_iff in Hw.
  destruct ws as [|w' ws'].
  - simpl. apply py_split_single; assumption.
  - change (py_join sep (w :: w' :: ws')) with (w ++ sep :: py_join sep (w' :: ws')).
    rewrite (py_split_no_sep sep w _ Hw). cbn [py_split]. rewrite Z.eqb_refl.
    rewrite IH by (discriminate || assumption). rewrite app_nil_r. reflexivity.
Qed.

(** Splitting commutes with dropping characters other than the separator. *)
Lemma py_split_filter : forall (f : Z -> bool) sep s,
  f sep = true -> py_split sep (filter f s) = map (filter f) (py_split sep s).
Proof.
  intros f sep s Hsep; induction s as [|c s IH]; [reflexivity|].
  simpl. destruct (f c) eqn:Hf.
  - simpl. rewrite IH. destruct (Z.eqb c sep) eqn:Hc.
    + reflexivity.
    + destruct (py_split sep s) eqn:E; [exfalso; exact (py_split_nonempty _ _ E)|].
      simpl. rewrite Hf. reflexivity.
  - destruct (Z.eqb c sep) eqn:Hc.
    + apply Z.eqb_eq in Hc; subst; congruence.
    + rewrite IH. destruct (py_split sep s) eqn:E;
        [exfalso; exact (py_split_nonempty _ _ E)|].
      simpl. rewrite Hf. reflexivity.
Qed.

Lemma lstrip_prefix : forall cs s, exists pre,
  s = pre ++ lstrip cs s /\ forallb (fun c => has_char c cs) pre = true.
Proof.
  intros cs s; induction s as [|c s IH]; simpl.
  - exists []; split; reflexivity.
  - destruct (existsb (Z.eqb c) cs) eqn:E.
    + destruct IH as [pre [Hs Hpre]]. exists (c :: pre). simpl.
      unfold has_char at 1. rewrite E, <- Hs, Hpre. split; reflexivity.
    + exists []; split; reflexivity.
Qed.

Lemma filter_lstrip : forall (f : Z -> bool) cs s,
  forallb (fun c => negb (f c)) cs = true ->
  filter f (lstrip cs s) = filter f s.
Proof.
  intros f cs s Hcs. destruct (lstrip_prefix cs s) as [pre [Hs Hpre]].
  rewrite Hs at 2. rewrite filter_app.
  assert (Hnil : filter f pre = []).
  { clear Hs. induction pre as [|c pre IHp]; [reflexivity|].
    simpl in Hpre. apply andb_true_iff in Hpre as [Hc Hpre].
    simpl. unfold has_char in Hc. apply existsb_exists in Hc as [c' [Hin Heq]].
    apply Z.eqb_eq in Heq; subst c'.
    rewrite forallb_forall in Hcs. specialize (Hcs c Hin).
    apply negb_true_iff in Hcs. rewrite Hcs. apply IHp. exact Hpre. }
  rewrite Hnil. reflexivity.
Qed.

Lemma filter_rev : forall (A : Type) (f : A -> bool) l,
  filter f (rev l) = rev (filter f l).
Proof.
  intros A f l; induction l as [|a l IH]; simpl; [reflexivity|].
  rewrite filter_app, IH. simpl. destruct (f a); simpl; [reflexivity|].
  rewrite app_nil_r. reflexivity.
Qed.

Lemma filter_py_strip : forall (f : Z -> bool) cs s,
  forallb (fun c => negb (f c)) cs = true ->
  filter f (py_strip cs s) = filter f s.
Proof.
  intros f cs s Hcs. unfold py_strip.
  rewrite filter_rev, filter_lstrip, filter_rev, filter_lstrip by assumption.
  apply rev_involutive.
Qed.

Section Decoding.
Variable F : Type.
Variable py_float : list Z -> option F.
Variable unicode_printable : Z -> bool.

Lemma parse_items_app : forall res l1 l2,
  parse_items F py_float res (l1 ++ l2) =
  match parse_items F py_float res l1 with
  | Ok r => parse_items F py_float r l2
  | Exc e => Exc e
  end.
Proof.
  intros res l1; revert res; induction l1 as [|it l1 IH]; intros res l2; simpl;
    [reflexivity|].
  destruct (parse_item F py_float res it); [apply IH|reflexivity].
Qed.

Lemma parse_items_unrecognized : forall res l,
  forallb unrecognized l = true -> parse_items F py_float res l = Ok res.
Proof.
  intros res l; induction l as [|tok l IH]; intros Hl; simpl; [reflexivity|].
  simpl in Hl. apply andb_true_iff in Hl as [Ht Hl].
  unfold parse_item, unrecognized in *.
  destruct (py_split 61 tok) as [|part0 rest]; [discriminate|].
  apply andb_true_iff in Ht as [HT HH]. apply negb_true_iff in HT, HH.
  rewrite HT, HH. apply IH; assumption.
Qed.

Lemma parse_data_str_filtered : forall data,
  parse_data_str F py_float unicode_printable data =
  parse_items F py_float [] (py_split 32 (filter (py_isprintable unicode_printable) data)).
Proof.
  intros data. unfold parse_data_str.
  rewrite filter_py_strip by reflexivity. reflexivity.
Qed.

Lemma parse_item_error : forall res tok e,
  parse_item F py_float res tok = Exc e -> e = IndexError \/ e = ValueError.
Proof.
  intros res tok e. unfold parse_item.
  destruct (py_split 61 tok) as [|part0 rest];
    [|destruct (str_eqb part0 (str_of "T")); [|destruct (str_eqb part0 (str_of "H"))]];
    try destruct rest as [|v r]; try destruct (py_float v);
    intros Hx; try discriminate Hx; injection Hx as <-; auto.
Qed.

Lemma parse_items_error : forall res l e,
  parse_items F py_float res l = Exc e -> e = IndexError \/ e = ValueError.
Proof.
  intros res l; revert res; induction l as [|tok l IH]; intros res e H; simpl in H;
    [discriminate|].
  destruct (parse_item F py_float res tok) eqn:E; [eapply IH; eassumption|].
  inversion H; subst. eapply parse_item_error; eassumption.
Qed.

End Decoding.

Lemma py_split_key_value : forall t,
  has_char 61 t = false -> py_split 61 (str_of "T=" ++ t) = [str_of "T"; t].
Proof. intros t Ht. simpl. rewrite py_split_single by exact Ht. reflexivity. Qed.

Lemma py_split_key_value_H : forall h,
  has_char 61 h = false -> py_split 61 (str_of "H=" ++ h) = [str_of "H"; h].
Proof. intros h Hh. simpl. rewrite py_split_single by exact Hh. reflexivity. Qed.

Lemma parse_item_T : forall (F : Type) (py_float : list Z -> option F) res t,
  has_char 61 t = false ->
  parse_item F py_float res (str_of "T=" ++ t) =
  match py_float t with
  | Some x => Ok (dict_set F TEMPERATURE x res)
  | None => Exc ValueError
  end.
Proof. intros F pf res t Ht. unfold parse_item. rewrite py_split_key_value by exact Ht.
  reflexivity. Qed.

Lemma parse_item_H : forall (F : Type) (py_float : list Z -> option F) res h,
  has_char 61 h = false ->
  parse_item F py_float res (str_of "H=" ++ h) =
  match py_float h with
  | Some x => Ok (dict_set F HUMIDITY x res)
  | None => Exc ValueError
  end.
Proof. intros F pf res h Hh. unfold parse_item. rewrite py_split_key_value_H by exact Hh.
  reflexivity. Qed.

(** * Claims *)

(** C6: a payload that reads [T=<float> H=<float>] once its NUL padding and
    non-printable characters are dropped, possibly with further tokens whose
    key is neither [T] nor [H], decodes ([_parse_data]) to exactly that
    temperature and that humidity; the docstring payload
    [54 3d 32 35 2e 36 20 48 3d 32 33 2e 36 00] decodes to
    temperature = float("25.6") and humidity = float("23.6"). *)
Theorem parse_data_T_H :
  forall (F : Type) (py_float : list Z -> option F) (unicode_printable : Z -> bool),
  (forall (w : World) (payload t h : list Z) (pre mid post : list (list Z)) (x y : F),
     _cache (poller w) = Some payload ->
     filter (py_isprintable unicode_printable) payload =
       py_join 32 (pre ++ (str_of "T=" ++ t) :: mid ++ (str_of "H=" ++ h) :: post) ->
     has_char 32 t = false -> has_char 61 t = false ->
     has_char 32 h = false -> has_char 61 h = false ->
     forallb (fun tok => negb (has_char 32 tok) && unrecognized tok) (pre ++ mid ++ post)
       = true ->
     py_float t = Some x -> py_float h = Some y ->
     _parse_data F py_float unicode_printable w
       = (Ok [(TEMPERATURE, x); (HUMIDITY, y)], w)) /\
  (forall a b : F,
     py_float (str_of "25.6") = Some a -> py_float (str_of "23.6") = Some b ->
     exists s, utf8_decode docstring_payload = Some s /\
       parse_data_str F py_float unicode_printable (py_strip [32; 10; 9] s)
         = Ok [(TEMPERATURE, a); (HUMIDITY, b)]).
Proof.
  intros F py_float up. split.
  - intros w payload t h pre mid post x y Hc Hp Ht32 Ht61 Hh32 Hh61 Hrest Hx Hy.
    unfold _parse_data, get_p, bind, lift. rewrite Hc. f_equal. f_equal.
    rewrite parse_data_str_filtered, Hp.
    rewrite !forallb_app in Hrest. simpl in Hrest.
    apply andb_true_iff in Hrest as [Hpre Hrest].
    apply andb_true_iff in Hrest as [Hmid Hpost].
    rewrite py_split_join.
    2: { destruct pre; discriminate. }
    2: { rewrite !forallb_app. cbn [forallb]. rewrite !forallb_app. cbn [forallb].
         change (has_char 32 (str_of "T=" ++ t)) with (has_char 32 t).
         change (has_char 32 (str_of "H=" ++ h)) with (has_char 32 h).
         rewrite Ht32, Hh32. cbn [negb andb].
         assert (Hsp : forall l, forallb (fun tok => negb (has_char 32 tok) && unrecognized tok) l
                        = true -> forallb (fun w0 => negb (has_char 32 w0)) l = true).
         { intros l; induction l as [|tok l IH]; simpl; [reflexivity|].
           intros Hl. apply andb_true_iff in Hl as [Ht Hl].
           apply andb_true_iff in Ht as [Ht _]. rewrite Ht. simpl. apply IH, Hl. }
         rewrite (Hsp pre Hpre), (Hsp mid Hmid), (Hsp post Hpost). reflexivity. }
    assert (Hunr : forall l, forallb (fun tok => negb (has_char 32 tok) && unrecognized tok) l
                   = true -> forallb unrecognized l = true).
    { intros l; induction l as [|tok l IH]; simpl; [reflexivity|].
      intros Hl. apply andb_true_iff in Hl as [Ht Hl].
      apply andb_true_iff in Ht as [_ Ht]. rewrite Ht. simpl. apply IH, Hl. }
    rewrite parse_items_app, (parse_items_unrecognized F py_float _ _ (Hunr _ Hpre)).
    cbn [parse_items]. rewrite (parse_item_T F py_float _ t Ht61), Hx.
    cbn iota beta.
    rewrite parse_items_app, (parse_items_unrecognized F py_float _ _ (Hunr _ Hmid)).
    cbn [parse_items]. rewrite (parse_item_H F py_float _ h Hh61), Hy.
    cbn iota beta.
    apply (parse_items_unrecognized F py_float _ _ (Hunr _ Hpost)).
  - intros a b Ha Hb. eexists. split; [reflexivity|].
    assert (E1 : str_of "25.6" = [50; 53; 46; 54]) by reflexivity.
    assert (E2 : str_of "23.6" = [50; 51; 46; 54]) by reflexivity.
    rewrite E1 in Ha. rewrite E2 in Hb.
    vm_compute. rewrite Ha, Hb. reflexivity.
Qed.

(** C10 (amended): decoding is not total.  If the cached payload has a
    space-separated token that is exactly [T] or [H] (no [=]), [_parse_data]
    raises: [IndexError] when no earlier token has already failed to decode
    (that token's [ValueError] otherwise).  Such a payload delivered to
    [handleNotification] makes the handler raise the same exception, with
    the payload left in the cache (not invalidated) and [_last_read]
    untouched. *)
Theorem bare_key_token_raises :
  forall (F : Type) (py_float : list Z -> option F) (float_gt : F -> Z -> bool)
         (up : Z -> bool),
  (forall (cache : list Z) (pre post : list (list Z)) (key : list Z),
     py_split 32 cache = pre ++ key :: post ->
     key = str_of "T" \/ key = str_of "H" ->
     exists e, parse_data_str F py_float up cache = Exc e /\
       (e = IndexError \/ e = ValueError) /\
       (forall r, parse_items F py_float [] (map (filter (py_isprintable up)) pre) = Ok r ->
                  e = IndexError)) /\
  (forall (w : World) (raw : bytes) (s : list Z) (pre post : list (list Z)) (key : list Z),
     utf8_decode raw = Some s ->
     py_split 32 (py_strip [32; 10; 9] s) = pre ++ key :: post ->
     key = str_of "T" \/ key = str_of "H" ->
     exists e,
       parse_data_str F py_float up (py_strip [32; 10; 9] s) = Exc e /\
       handleNotification F py_float float_gt up _HANDLE_READ_WRITE_SENSOR_DATA (Some raw) w
       = (Exc e, mkWorld (set_cache (Some (py_strip [32; 10; 9] s)) (poller w))
                         (clock w) (trace w)) /\
       (e = IndexError \/ e = ValueError) /\
       (forall r, parse_items F py_float [] (map (filter (py_isprintable up)) pre) = Ok r ->
                  e = IndexError)).
Proof.
  intros F py_float float_gt up.
  assert (P1 : forall (cache : list Z) (pre post : list (list Z)) (key : list Z),
     py_split 32 cache = pre ++ key :: post ->
     key = str_of "T" \/ key = str_of "H" ->
     exists e, parse_data_str F py_float up cache = Exc e /\
       (e = IndexError \/ e = ValueError) /\
       (forall r, parse_items F py_float [] (map (filter (py_isprintable up)) pre) = Ok r ->
                  e = IndexError)).
  { intros cache pre post key Hsplit Hkey.
    rewrite parse_data_str_filtered, py_split_filter by reflexivity.
    rewrite Hsplit, map_app, parse_items_app. cbn [map].
    assert (Hk : forall r, parse_item F py_float r (filter (py_isprintable up) key)
                           = Exc IndexError).
    { intros r. destruct Hkey as [-> | ->]; reflexivity. }
    destruct (parse_items F py_float [] (map (filter (py_isprintable up)) pre)) as [r|e] eqn:Ep.
    - exists IndexError. cbn [parse_items]. rewrite Hk. auto.
    - exists e. split; [reflexivity|]. split.
      + eapply parse_items_error; exact Ep.
      + intros r Hr. discriminate Hr. }
  split; [exact P1|].
  intros w raw s pre post key Hs Hsplit Hkey.
  destruct (P1 _ _ _ _ Hsplit Hkey) as [e [He [Hkind Hidx]]].
  exists e. split; [exact He|]. split; [|split; [exact Hkind|exact Hidx]].
  unfold handleNotification. rewrite Hs.
  unfold bind at 1, modify. cbn [poller clock trace].
  unfold bind at 1, _check_data, bind at 1, get_p. cbn [poller].
  unfold cache_available, set_cache at 1. cbn [_cache negb].
  unfold bind at 1, _parse_data, bind at 1, get_p. cbn [poller].
  unfold set_cache at 1. cbn [_cache]. unfold lift. rewrite He. reflexivity.
Qed.

Ltac run_monad :=
  unfold bind, modify, get_p, now, lift, ret, raise, dict_index;
  cbn [poller clock trace _cache _last_read _cache_timeout set_cache set_last_read
       cache_available negb dict_index].

(** C2 (amended): for a payload whose decoding yields a temperature and a
    humidity, [handleNotification] raises nothing; if the humidity is greater
    than 100 the cache is cleared at once ([cache_available()] is false right
    after, the retry window is shortened), otherwise the payload is kept as the
    cache with a fresh read time.  Hence a cached reading left by such a payload
    never has humidity above 100; a humidity below 0 is not checked. *)
Theorem handleNotification_humidity_check :
  forall (F : Type) (py_float : list Z -> option F) (float_gt : F -> Z -> bool)
         (up : Z -> bool) (w : World) (raw : bytes) (s : list Z) (d : pydict F) (t h : F),
  utf8_decode raw = Some s ->
  parse_data_str F py_float up (py_strip [32; 10; 9] s) = Ok d ->
  dict_get F TEMPERATURE d = Some t ->
  dict_get F HUMIDITY d = Some h ->
  (float_gt h 100 = true ->
   handleNotification F py_float float_gt up _HANDLE_READ_WRITE_SENSOR_DATA (Some raw) w
   = (Ok tt, mkWorld (set_last_read (Some (clock w - _cache_timeout (poller w) + 300))
                        (set_cache None (poller w))) (clock w) (trace w)) /\
   cache_available (set_last_read (Some (clock w - _cache_timeout (poller w) + 300))
                      (set_cache None (poller w))) = false) /\
  (float_gt h 100 = false ->
   handleNotification F py_float float_gt up _HANDLE_READ_WRITE_SENSOR_DATA (Some raw) w
   = (Ok tt, mkWorld (set_last_read (Some (clock w))
                        (set_cache (Some (py_strip [32; 10; 9] s)) (poller w)))
                     (clock w) (trace w))).
Proof.
  intros F py_float float_gt up w raw s d t h Hs Hd Ht Hh.
  unfold handleNotification. rewrite Hs.
  unfold _check_data, _parse_data, clear_cache, retry_in_5_minutes. run_monad.
  rewrite Hd. run_monad. rewrite Ht, Hh. run_monad.
  split; intros Hgt; rewrite Hgt; run_monad; [split; reflexivity | reflexivity].
Qed.

(** C4 (code defect): a notification payload that does not decode to a
    temperature and a humidity, here [T=25.6], makes [handleNotification]
    raise ([KeyError], or [ValueError] if [float] rejects the text) out of
    [_check_data]: the corrupt payload stays cached and [_last_read] is left
    as it was, instead of being set to [now - cache_timeout + 300]. *)
Theorem handleNotification_undecodable_payload_escapes :
  forall (F : Type) (py_float : list Z -> option F) (float_gt : F -> Z -> bool)
         (up : Z -> bool) (w : World),
  exists e,
    handleNotification F py_float float_gt up _HANDLE_READ_WRITE_SENSOR_DATA
      (Some (bytes_of "T=25.6")) w
    = (Exc e, mkWorld (set_cache (Some (str_of "T=25.6")) (poller w)) (clock w) (trace w))
    /\ (e = KeyError \/ e = ValueError).
Proof.
  intros F py_float float_gt up w.
  destruct (py_float (str_of "25.6")) as [x|] eqn:Ex.
  - exists KeyError. split; [|left; reflexivity].
    unfold handleNotification, _check_data, _parse_data. vm_compute in Ex.
    vm_compute. rewrite Ex. reflexivity.
  - exists ValueError. split; [|right; reflexivity].
    unfold handleNotification, _check_data, _parse_data. vm_compute in Ex.
    vm_compute. rewrite Ex. reflexivity.
Qed.

Ltac split_matches :=
  repeat (cbn beta iota zeta;
          match goal with
          | |- context [match ?x with _ => _ end] =>
              lazymatch x with
              | context [match _ with _ => _ end] => fail
              | _ => destruct x eqn:?
              end
          end).

Lemma byte_val_range : forall x, 0 <= byte_val x <= 255.
Proof. intros x. unfold byte_val. pose proof (Byte.to_N_bounded x). lia. Qed.

Lemma length_snoc : forall (A : Type) (l : list A) (a : A),
  List.length (l ++ [a]) = S (List.length l).
Proof. intros A l a. rewrite length_app. simpl. lia. Qed.

(** C8 (amended): [firmware_version] fetches iff no firmware version is
    cached or more than 24 hours passed since the last fetch (when a version
    is cached its fetch time is set).  Without a fetch nothing happens and the
    cached version is returned.  A fetch first stamps the fetch time, then
    opens a connection; when both reads succeed, the firmware is the UTF-8
    text of the reply ([None] if absent), the battery is the unsigned value
    of the one-byte reply, in [0, 255] (0 if absent), and the new firmware
    string is returned. *)
Theorem firmware_version_fetch :
  forall (be : Backend) (w : World),
  (_firmware_version (poller w) <> None -> _fw_last_read (poller w) <> None) ->
  ((_firmware_version (poller w) <> None /\
    forall l, _fw_last_read (poller w) = Some l -> ~ clock w - 86400 > l) ->
   firmware_version be w = (Ok (_firmware_version (poller w)), w)) /\
  ((_firmware_version (poller w) = None \/
    exists l, _fw_last_read (poller w) = Some l /\ clock w - 86400 > l) ->
   (exists r w' rest, firmware_version be w = (r, w') /\
      trace w' = trace w ++ ActConnect :: rest /\
      _fw_last_read (poller w') = Some (clock w)) /\
   (forall rf rb fw bat,
      connect_reply be (List.length (trace w)) = None ->
      read_reply be (S (List.length (trace w))) _HANDLE_READ_FIRMWARE_VERSION = Ok rf ->
      read_reply be (S (S (List.length (trace w)))) _HANDLE_READ_BATTERY_LEVEL = Ok rb ->
      (rf = None /\ fw = None \/ exists b s, rf = Some b /\ utf8_decode b = Some s /\ fw = Some s) ->
      (rb = None /\ bat = 0 \/ exists x, rb = Some [x] /\ bat = byte_val x) ->
      exists w', firmware_version be w = (Ok fw, w') /\
        _firmware_version (poller w') = fw /\
        battery (poller w') = Some bat /\ 0 <= bat <= 255 /\
        _fw_last_read (poller w') = Some (clock w) /\
        trace w' = trace w ++ [ActConnect; ActRead _HANDLE_READ_FIRMWARE_VERSION;
                               ActRead _HANDLE_READ_BATTERY_LEVEL; ActDisconnect])).
Proof.
  intros be w Hinv. split.
  - intros [Hfw Hl]. unfold firmware_version. run_monad.
    destruct (_firmware_version (poller w)) as [v|] eqn:Efw; [|congruence].
    destruct (_fw_last_read (poller w)) as [l|] eqn:El; [|exfalso; apply Hinv; congruence].
    assert (Hlt : (l <? clock w - 86400) = false).
    { apply Z.ltb_ge. specialize (Hl l eq_refl). lia. }
    rewrite Hlt. reflexivity.
  - intros Hstale.
    assert (Hneed : forall (k : bool -> M (option (list Z))),
      bind (match _firmware_version (poller w) with
       | None => ret true
       | Some _ => t <- now ;;
                   match _fw_last_read (poller w) with
                   | None => raise TypeError
                   | Some l => ret (l <? t - 86400)
                   end
       end) k w = k true w).
    { intros k. destruct Hstale as [-> | [l [El Hgt]]]; [reflexivity|].
      destruct (_firmware_version (poller w)); [|reflexivity].
      rewrite El. unfold bind, now, ret. cbn beta iota.
      replace (l <? clock w - 86400) with true by (symmetry; apply Z.ltb_lt; lia).
      reflexivity. }
    split; unfold firmware_version; unfold bind at 1, get_p at 1; cbn beta iota;
      rewrite Hneed; cbn beta iota;
      unfold with_connection, read_handle, io, finally, py_ord; run_monad.
    + split_matches;
        eexists _, _, _; (split; [reflexivity|]);
        (split; [cbn [trace poller clock]; rewrite <- ?app_assoc; reflexivity
                | reflexivity]).
    + intros rf rb fw bat Hc Hrf Hrb Hfw Hbat. rewrite Hc.
      cbn beta iota zeta; cbn [trace poller clock]. rewrite !length_snoc, Hrf.
      cbn beta iota zeta; cbn [trace poller clock]. rewrite ?length_snoc, Hrb.
      cbn beta iota zeta.
      destruct Hfw as [[-> ->] | [b [s [-> [Hs ->]]]]];
        [|rewrite Hs]; cbn beta iota zeta;
      (destruct Hbat as [[-> ->] | [x [-> ->]]]; cbn beta iota zeta;
       eexists; (split; [reflexivity|]); cbn;
       repeat split; try reflexivity;
       try (rewrite <- !app_assoc; reflexivity);
       try (pose proof (byte_val_range x); lia); try lia).
Qed.

Lemma parameter_value_serve_pure :
  forall (F : Type) (py_float : list Z -> option F) (up : Z -> bool) parameter w,
  snd (parameter_value_serve F py_float up parameter w) = w.
Proof.
  intros F pf up parameter w. unfold parameter_value_serve, _parse_data. run_monad.
  unfold cache_available.
  destruct (_cache (poller w)) as [c|] eqn:Hc; cbn beta iota; [|reflexivity].
  rewrite Hc. cbn beta iota.
  destruct (parse_data_str F pf up c); cbn beta iota; [|reflexivity].
  destruct (dict_get F parameter a); reflexivity.
Qed.

(** C1 (code defect): [parameter_value] reads [MiTempParameter.MI_BATTERY]
    at line 127, a member the Enum does not have, so every call, for
    [BATTERY] as for any parameter, raises [AttributeError] before anything
    else happens: it never reaches [battery_level()]. *)
Theorem parameter_value_raises_AttributeError :
  forall (F : Type) (py_float : list Z -> option F) (float_gt : F -> Z -> bool)
         (up : Z -> bool) (be : Backend) (parameter : MiTempParameter)
         (read_cached : bool) (w : World),
  parameter_value F py_float float_gt up be parameter read_cached w = (Exc AttributeError, w).
Proof. intros. reflexivity. Qed.

(** C9 (code defect, same as C1): [clear_cache] makes [cache_available()]
    false and resets [_last_read], so the staleness test of the next
    [parameter_value] holds whatever the time; but that call raises
    [AttributeError] at line 127 and refreshes nothing. *)
Theorem clear_cache_then_parameter_value :
  forall (F : Type) (py_float : list Z -> option F) (float_gt : F -> Z -> bool)
         (up : Z -> bool) (be : Backend) (parameter : MiTempParameter)
         (read_cached : bool) (w : World),
  let w1 := snd (clear_cache w) in
  cache_available (poller w1) = false /\
  _last_read (poller w1) = None /\
  (forall t, cache_expired read_cached (poller w1) t = true) /\
  parameter_value F py_float float_gt up be parameter read_cached w1 = (Exc AttributeError, w1).
Proof.
  intros. split; [reflexivity|]. split; [reflexivity|]. split; [|reflexivity].
  intros t. unfold cache_expired. cbn. destruct read_cached; reflexivity.
Qed.

(** The serving step of [parameter_value] (lines 141-143) raises
    [SensorUnavailable] (the [BluetoothBackendException] "Could not read
    data from Mi Temp sensor <mac>") exactly when no cache is present.
    With a cache present it decodes it and returns the requested field; a
    field missing from the decoded result raises [KeyError], and a decoding
    failure raises the decoder's exception; nothing else changes. *)
Theorem parameter_value_serve_result :
  forall (F : Type) (py_float : list Z -> option F) (up : Z -> bool)
         (parameter : MiTempParameter) (w : World),
  (_cache (poller w) = None ->
   parameter_value_serve F py_float up parameter w =
   (Exc (BluetoothBackendException
           (str_of "Could not read data from Mi Temp sensor " ++ _mac (poller w))), w)) /\
  (forall c d, _cache (poller w) = Some c -> parse_data_str F py_float up c = Ok d ->
   (forall x, dict_get F parameter d = Some x ->
      parameter_value_serve F py_float up parameter w = (Ok x, w)) /\
   (dict_get F parameter d = None ->
      parameter_value_serve F py_float up parameter w = (Exc KeyError, w))) /\
  (forall c e, _cache (poller w) = Some c -> parse_data_str F py_float up c = Exc e ->
   parameter_value_serve F py_float up parameter w = (Exc e, w)).
Proof.
  intros F pf up parameter w. unfold parameter_value_serve, _parse_data. run_monad.
  unfold cache_available.
  split; [intros Hc; rewrite Hc; reflexivity|]. split.
  - intros c d Hc Hd. rewrite Hc. cbn beta iota. rewrite Hc. cbn beta iota.
    rewrite Hd. cbn beta iota.
    split; [intros x Hx | intros Hx]; rewrite Hx; reflexivity.
  - intros c e Hc He. rewrite Hc. cbn beta iota. rewrite Hc. cbn beta iota.
    rewrite He. reflexivity.
Qed.


Lemma parameter_value_serve_poller :
  forall (F : Type) (py_float : list Z -> option F) (up : Z -> bool)
         (parameter : MiTempParameter) (w w' : World),
  poller w = poller w' ->
  parameter_value_serve F py_float up parameter w =
  (fst (parameter_value_serve F py_float up parameter w'), w).
Proof.
  intros F pf up parameter [p c t] [p' c' t'] Hp. cbn [poller] in Hp. subst p'.
  unfold parameter_value_serve, _parse_data. run_monad. cbn [poller].
  unfold cache_available.
  destruct (_cache p) as [d|] eqn:Hc; cbn beta iota; [|reflexivity].
  cbn [poller]. rewrite Hc. cbn beta iota.
  destruct (parse_data_str F pf up d); cbn beta iota; [|reflexivity].
  destruct (dict_get F parameter a); reflexivity.
Qed.

(** C3 (amended): in the temperature/humidity part of [parameter_value]
    (lines 131-143), the staleness test runs under the lock at the time
    [now] read after acquiring it.  When [read_cached] is true, a
    timestamp [l] exists and [now - cache_timeout <= l] (so also when
    exactly [cache_timeout] seconds have elapsed), the only I/O is the lock
    and its release: no connection is opened and the cached data is
    served.  Otherwise (strictly more than [cache_timeout] seconds, no
    timestamp, or [read_cached] false) [fill_cache] runs exactly once,
    under the lock, before the data is served. *)
Theorem parameter_value_body_cache_policy :
  forall (F : Type) (py_float : list Z -> option F) (float_gt : F -> Z -> bool)
         (up : Z -> bool) (be : Backend) (parameter : MiTempParameter)
         (read_cached : bool) (w : World),
  let n := List.length (trace w) in
  let w1 := snd (io be ActLock w) in
  (cache_expired read_cached (poller w) (clock w1) = false ->
   parameter_value_body F py_float float_gt up be parameter read_cached w =
   (fst (parameter_value_serve F py_float up parameter w),
    mkWorld (poller w) (clock w + op_duration be n + op_duration be (S n))
            (trace w ++ [ActLock; ActUnlock]))) /\
  (cache_expired read_cached (poller w) (clock w1) = true ->
   parameter_value_body F py_float float_gt up be parameter read_cached w =
   match fill_cache F py_float float_gt up be w1 with
   | (Ok _, w2) => let w3 := snd (io be ActUnlock w2) in
                   (fst (parameter_value_serve F py_float up parameter w3), w3)
   | (Exc e, w2) => (Exc e, snd (io be ActUnlock w2))
   end).
Proof.
  intros F pf fg up be parameter rc w n w1.
  unfold parameter_value_body, parameter_value_refresh, with_lock, finally.
  split; intros H.
  - unfold w1 in H. unfold io in H |- *. run_monad. cbn [snd clock poller trace] in H. rewrite H.
    cbn beta iota. rewrite (parameter_value_serve_poller _ _ _ _ _ w) by reflexivity.
    cbn [poller clock trace]. fold n. rewrite length_snoc, <- app_assoc.
    reflexivity.
  - unfold w1 in H |- *. unfold io in H |- *. run_monad. cbn [snd clock poller trace] in H |- *. rewrite H.
    cbn beta iota.
    destruct (fill_cache F pf fg up be _) as [[u|e] w2]; [|reflexivity].
    apply parameter_value_serve_poller. reflexivity.
Qed.


(** C7 (code defect): [_check_data] is meant to wipe invalid data (its
    docstring), which would leave the serving step of [parameter_value]
    (lines 141-143) with no cache and so raise [SensorUnavailable].  It
    does not: the notification [H=50], in any state, raises [KeyError] out
    of [_check_data] and stays cached, and serving the temperature then
    raises [KeyError].  Had the cache been wiped ([clear_cache]), the same
    step would raise [SensorUnavailable]. *)
Theorem missing_key_payload_serves_KeyError :
  forall w : World,
  let w1 := mkWorld (set_cache (Some (str_of "H=50")) (poller w)) (clock w) (trace w) in
  handleNotification Q dec_float q_gt all_printable _HANDLE_READ_WRITE_SENSOR_DATA
    (Some (bytes_of "H=50")) w = (Exc KeyError, w1) /\
  parameter_value_serve Q dec_float all_printable TEMPERATURE w1 = (Exc KeyError, w1) /\
  parameter_value_serve Q dec_float all_printable TEMPERATURE (snd (clear_cache w1)) =
    (Exc (BluetoothBackendException
            (str_of "Could not read data from Mi Temp sensor " ++ _mac (poller w))),
     snd (clear_cache w1)).
Proof.
  intros [p t tr] w1. subst w1.
  split; [|split]; vm_compute; reflexivity.
Qed.

(** * Counterexamples to the claims as stated, and witnesses *)

(** C2: a payload with humidity -5 is kept as the cache: only [> 100] is
    checked, so a cached reading can decode to a humidity below 0. *)
Lemma negative_humidity_stays_cached :
  let w' := snd (handleNotification Q dec_float q_gt all_printable
                   _HANDLE_READ_WRITE_SENSOR_DATA (Some (bytes_of "T=20 H=-5"))
                   (mkWorld (init_poller [] 600) 0 [])) in
  cache_available (poller w') = true /\
  _parse_data Q dec_float all_printable w' =
    (Ok [(TEMPERATURE, 20 # 1); (HUMIDITY, -5 # 1)], w') /\
  (-5 # 1 < 0)%Q.
Proof. vm_compute. split; [reflexivity|]. split; reflexivity. Qed.

(** C2: the humidity check on a payload with humidity 150. *)
Lemma handleNotification_humidity_check_witness :
  handleNotification Q dec_float q_gt all_printable _HANDLE_READ_WRITE_SENSOR_DATA
    (Some (bytes_of "T=20 H=150")) (mkWorld (init_poller [] 600) 0 [])
  = (Ok tt, mkWorld (set_last_read (Some (0 - 600 + 300))
                       (set_cache None (init_poller [] 600))) 0 []) /\
  cache_available (set_last_read (Some (0 - 600 + 300))
                     (set_cache None (init_poller [] 600))) = false.
Proof.
  refine (proj1 (handleNotification_humidity_check Q dec_float q_gt all_printable
            (mkWorld (init_poller [] 600) 0 []) (bytes_of "T=20 H=150")
            (str_of "T=20 H=150") [(TEMPERATURE, 20 # 1); (HUMIDITY, 150 # 1)]
            (20 # 1) (150 # 1) _ _ _ _) _);
    vm_compute; reflexivity.
Defined.

(** C3: with [cache_timeout = 600], a call exactly 600 seconds after the
    last read serves the cache and opens no connection. *)
Lemma cache_served_at_exactly_ttl :
  parameter_value_body Q dec_float q_gt all_printable quiet_backend TEMPERATURE true
    (mkWorld (set_last_read (Some 0) (set_cache (Some (str_of "T=20 H=50"))
                                        (init_poller [] 600))) 600 [])
  = (Ok (20 # 1),
     mkWorld (set_last_read (Some 0) (set_cache (Some (str_of "T=20 H=50"))
                                        (init_poller [] 600))) 600 [ActLock; ActUnlock]).
Proof. vm_compute. reflexivity. Qed.

(** C3: the cache served 599 seconds after the last read. *)
Lemma parameter_value_body_cache_policy_witness :
  cache_expired true (set_last_read (Some 1) (set_cache (Some (str_of "T=20 H=50"))
                                                (init_poller [] 600))) 600 = false /\
  parameter_value_body Q dec_float q_gt all_printable quiet_backend TEMPERATURE true
    (mkWorld (set_last_read (Some 1) (set_cache (Some (str_of "T=20 H=50"))
                                        (init_poller [] 600))) 600 [])
  = (fst (parameter_value_serve Q dec_float all_printable TEMPERATURE
            (mkWorld (set_last_read (Some 1) (set_cache (Some (str_of "T=20 H=50"))
                                                (init_poller [] 600))) 600 [])),
     mkWorld (set_last_read (Some 1) (set_cache (Some (str_of "T=20 H=50"))
                                        (init_poller [] 600))) 600 [ActLock; ActUnlock]).
Proof.
  assert (H : cache_expired true (set_last_read (Some 1) (set_cache (Some (str_of "T=20 H=50"))
                                                (init_poller [] 600))) 600 = false)
    by (vm_compute; reflexivity).
  split; [exact H|].
  exact (proj1 (parameter_value_body_cache_policy Q dec_float q_gt all_printable
                  quiet_backend TEMPERATURE true
                  (mkWorld (set_last_read (Some 1) (set_cache (Some (str_of "T=20 H=50"))
                                                      (init_poller [] 600))) 600 [])) H).
Defined.



(** The temperature served from the cache [T=20 H=50]. *)
Lemma parameter_value_serve_result_witness :
  parameter_value_serve Q dec_float all_printable TEMPERATURE
    (mkWorld (set_cache (Some (str_of "T=20 H=50")) (init_poller [] 600)) 0 [])
  = (Ok (20 # 1), mkWorld (set_cache (Some (str_of "T=20 H=50")) (init_poller [] 600)) 0 []).
Proof.
  exact (proj1 (proj1 (proj2 (parameter_value_serve_result Q dec_float all_printable
            TEMPERATURE (mkWorld (set_cache (Some (str_of "T=20 H=50")) (init_poller [] 600)) 0 [])))
            (str_of "T=20 H=50") [(TEMPERATURE, 20 # 1); (HUMIDITY, 50 # 1)]
            eq_refl (ltac:(vm_compute; reflexivity)))
         (20 # 1) eq_refl).
Defined.

(** C8: a battery byte of 200 is stored as is: the battery is not within
    [0, 100]. *)
Lemma battery_above_100 :
  fst (firmware_version battery_200_backend (mkWorld (init_poller [] 600) 0 []))
    = Ok (Some (str_of "1.0")) /\
  battery (poller (snd (firmware_version battery_200_backend
                          (mkWorld (init_poller [] 600) 0 [])))) = Some 200.
Proof. vm_compute. split; reflexivity. Qed.

(** C8: the first call fetches. *)
Lemma firmware_version_fetch_witness :
  exists w', firmware_version battery_200_backend (mkWorld (init_poller [] 600) 0 [])
             = (Ok (Some (str_of "1.0")), w') /\
    _firmware_version (poller w') = Some (str_of "1.0") /\
    battery (poller w') = Some 200 /\ 0 <= 200 <= 255 /\
    _fw_last_read (poller w') = Some 0 /\
    trace w' = [] ++ [ActConnect; ActRead _HANDLE_READ_FIRMWARE_VERSION;
                      ActRead _HANDLE_READ_BATTERY_LEVEL; ActDisconnect].
Proof.
  refine (proj2 (proj2 (firmware_version_fetch battery_200_backend
                          (mkWorld (init_poller [] 600) 0 []) _) _)
            (Some (bytes_of "1.0")) (Some [Byte.xc8]) (Some (str_of "1.0")) 200
            _ _ _ _ _).
  - intros H. exfalso. apply H. reflexivity.
  - left. reflexivity.
  - reflexivity.
  - reflexivity.
  - reflexivity.
  - right. exists (bytes_of "1.0"), (str_of "1.0"). split; [reflexivity|].
    split; [vm_compute; reflexivity | reflexivity].
  - right. exists Byte.xc8. split; reflexivity.
Defined.

(** C10: a bare [T] after a token whose value does not parse raises the
    [ValueError] of that token, not [IndexError]. *)
Lemma bare_key_after_bad_value :
  parse_data_str Q dec_float all_printable (str_of "H=abc T") = Exc ValueError /\
  In (str_of "T") (py_split 32 (str_of "H=abc T")).
Proof. split; [vm_compute; reflexivity | right; left; reflexivity]. Qed.

(** C10: the payload [H=50 T] makes the handler raise. *)
Lemma bare_key_token_raises_witness :
  exists e,
    parse_data_str Q dec_float all_printable (py_strip [32; 10; 9] (str_of "H=50 T")) = Exc e /\
    handleNotification Q dec_float q_gt all_printable _HANDLE_READ_WRITE_SENSOR_DATA
      (Some (bytes_of "H=50 T")) (mkWorld (init_poller [] 600) 0 [])
    = (Exc e, mkWorld (set_cache (Some (py_strip [32; 10; 9] (str_of "H=50 T")))
                         (init_poller [] 600)) 0 []) /\
    (e = IndexError \/ e = ValueError) /\
    (forall r, parse_items Q dec_float [] (map (filter (py_isprintable all_printable))
                                              [str_of "H=50"]) = Ok r -> e = IndexError).
Proof.
  refine (proj2 (bare_key_token_raises Q dec_float q_gt all_printable)
            (mkWorld (init_poller [] 600) 0 []) (bytes_of "H=50 T") (str_of "H=50 T")
            [str_of "H=50"] [] (str_of "T") _ _ _).
  - vm_compute. reflexivity.
  - vm_compute. reflexivity.
  - left. reflexivity.
Defined.

(** C6: the docstring payload, NUL-padded, as the cache. *)
Lemma parse_data_T_H_witness :
  _parse_data Q dec_float all_printable
    (mkWorld (set_cache (Some (str_of "T=25.6 H=23.6" ++ [0])) (init_poller [] 600)) 0 [])
  = (Ok [(TEMPERATURE, 256 # 10); (HUMIDITY, 236 # 10)],
     mkWorld (set_cache (Some (str_of "T=25.6 H=23.6" ++ [0])) (init_poller [] 600)) 0 []) /\
  exists s, utf8_decode docstring_payload = Some s /\
    parse_data_str Q dec_float all_printable (py_strip [32; 10; 9] s)
    = Ok [(TEMPERATURE, 256 # 10); (HUMIDITY, 236 # 10)].
Proof.
  split.
  - refine (proj1 (parse_data_T_H Q dec_float all_printable)
              (mkWorld (set_cache (Some (str_of "T=25.6 H=23.6" ++ [0])) (init_poller [] 600)) 0 [])
              (str_of "T=25.6 H=23.6" ++ [0]) (str_of "25.6") (str_of "23.6") [] [] []
              (256 # 10) (236 # 10) _ _ _ _ _ _ _ _ _);
      vm_compute; reflexivity.
  - refine (proj2 (parse_data_T_H Q dec_float all_printable) (256 # 10) (236 # 10) _ _);
      vm_compute; reflexivity.
Defined.

(** * Further properties of the code *)

(** ** [_format_bytes] *)

Lemma py_upper_join : forall ws,
  py_upper (py_join 32 ws) = py_join 32 (map py_upper ws).
Proof.
  intros ws; induction ws as [|w ws IH]; [reflexivity|].
  destruct ws as [|w' ws']; [reflexivity|].
  change (py_join 32 (w :: w' :: ws')) with (w ++ 32 :: py_join 32 (w' :: ws')).
  unfold py_upper in *. rewrite map_app. cbn [map]. rewrite IH. reflexivity.
Qed.

Lemma format_bytes_chunks : forall raw,
  _format_bytes (Some raw) = py_join 32 (map (fun c => py_upper (format_02x (byte_val c))) raw).
Proof. intros raw. unfold _format_bytes. rewrite py_upper_join, map_map. reflexivity. Qed.

Lemma format_chunk_length : forall b,
  List.length (py_upper (format_02x (byte_val b))) = 2%nat.
Proof. intros []; reflexivity. Qed.

Lemma format_chunk_chars : forall b,
  forallb upper_hex_or_space (py_upper (format_02x (byte_val b))) = true /\
  has_char 32 (py_upper (format_02x (byte_val b))) = false.
Proof. intros []; split; reflexivity. Qed.

Lemma format_chunk_decode : forall b,
  match py_upper (format_02x (byte_val b)) with
  | [x; y] => Byte.of_N (Z.to_N (16 * (if x <=? 57 then x - 48 else x - 55)
                                 + (if y <=? 57 then y - 48 else y - 55)))
  | _ => None
  end = Some b.
Proof. intros []; reflexivity. Qed.

Lemma format_chunk_inj : forall a b,
  py_upper (format_02x (byte_val a)) = py_upper (format_02x (byte_val b)) -> a = b.
Proof.
  intros a b H. pose proof (format_chunk_decode a) as Ha.
  rewrite H, format_chunk_decode in Ha. congruence.
Qed.

Lemma join_length_2 : forall ws,
  Forall (fun w => List.length w = 2%nat) ws ->
  List.length (py_join 32 ws) = (3 * List.length ws - 1)%nat.
Proof.
  intros ws; induction ws as [|w ws IH]; intros Hall; [reflexivity|].
  inversion Hall as [|? ? Hw Hrest]; subst.
  destruct ws as [|w' ws']; [simpl; rewrite Hw; reflexivity|].
  change (py_join 32 (w :: w' :: ws')) with (w ++ 32 :: py_join 32 (w' :: ws')).
  rewrite length_app. cbn [List.length]. rewrite IH by exact Hrest. rewrite Hw.
  cbn [List.length]. lia.
Qed.

Lemma join_forallb : forall (f : Z -> bool) ws,
  f 32 = true -> forallb (fun w => forallb f w) ws = true -> forallb f (py_join 32 ws) = true.
Proof.
  intros f ws Hsp; induction ws as [|w ws IH]; intros Hall; [reflexivity|].
  simpl in Hall. apply andb_true_iff in Hall as [Hw Hall].
  destruct ws as [|w' ws']; [exact Hw|].
  change (py_join 32 (w :: w' :: ws')) with (w ++ 32 :: py_join 32 (w' :: ws')).
  rewrite forallb_app. cbn [forallb]. rewrite Hw, Hsp, (IH Hall). reflexivity.
Qed.

Lemma format_bytes_size : forall raw : bytes,
  List.length (_format_bytes (Some raw)) = (3 * List.length raw - 1)%nat.
Proof.
  intros raw. rewrite format_bytes_chunks, join_length_2.
  - rewrite length_map. reflexivity.
  - apply Forall_forall. intros w Hw. apply in_map_iff in Hw as [b [<- _]].
    apply format_chunk_length.
Qed.

(** [_format_bytes] of [n] bytes is [3n - 1] characters long (two hex
    digits per byte, one space between bytes; empty for no bytes). *)
Theorem format_bytes_length : forall raw : bytes,
  List.length (_format_bytes (Some raw)) = (3 * List.length raw - 1)%nat.
Proof. exact format_bytes_size. Qed.

Lemma format_bytes_upper_hex : forall raw : bytes,
  forallb upper_hex_or_space (_format_bytes (Some raw)) = true.
Proof.
  intros raw. rewrite format_bytes_chunks. apply join_forallb; [reflexivity|].
  apply forallb_forall. intros w Hw. apply in_map_iff in Hw as [b [<- _]].
  apply format_chunk_chars.
Qed.

(** [_format_bytes] of a byte string uses only the characters
    [0-9], [A-F] and the space. *)
Theorem format_bytes_charset : forall raw : bytes,
  forallb upper_hex_or_space (_format_bytes (Some raw)) = true.
Proof. exact format_bytes_upper_hex. Qed.

Lemma map_chunk_inj : forall a b : bytes,
  map (fun c => py_upper (format_02x (byte_val c))) a =
  map (fun c => py_upper (format_02x (byte_val c))) b -> a = b.
Proof.
  intros a; induction a as [|x a IH]; intros [|y b] H; try discriminate; [reflexivity|].
  injection H as Hxy Hab. f_equal; [apply format_chunk_inj, Hxy | apply IH, Hab].
Qed.

Lemma format_bytes_split : forall raw : bytes, raw <> [] ->
  py_split 32 (_format_bytes (Some raw)) =
  map (fun c => py_upper (format_02x (byte_val c))) raw.
Proof.
  intros raw Hne. rewrite format_bytes_chunks. apply py_split_join.
  - destruct raw; [congruence|discriminate].
  - apply forallb_forall. intros w Hw. apply in_map_iff in Hw as [b [<- _]].
    rewrite (proj2 (format_chunk_chars b)). reflexivity.
Qed.

(** [_format_bytes] is injective: distinct arguments ([None] or byte
    strings) are printed differently. *)
Theorem format_bytes_injective : forall x y : option bytes,
  _format_bytes x = _format_bytes y -> x = y.
Proof.
  assert (Hnone : forall raw, _format_bytes (Some raw) <> _format_bytes None).
  { intros raw H. pose proof (format_bytes_upper_hex raw) as Hc. rewrite H in Hc.
    discriminate Hc. }
  assert (Hnil : forall raw, _format_bytes (Some raw) = [] -> raw = []).
  { intros raw H. pose proof (format_bytes_size raw) as Hl. rewrite H in Hl.
    destruct raw; [reflexivity|]. cbn [List.length] in Hl. lia. }
  intros [a|] [b|] H.
  - destruct a as [|x a]; [symmetry in H; rewrite (Hnil b H); reflexivity|].
    destruct b as [|y b]; [exfalso; pose proof (Hnil (x :: a) H) as E; discriminate E|].
    f_equal. apply map_chunk_inj.
    rewrite <- format_bytes_split, H, format_bytes_split by discriminate. reflexivity.
  - exfalso. exact (Hnone a H).
  - exfalso. exact (Hnone b (eq_sym H)).
  - reflexivity.
Qed.

(** ** [name()] *)

(** When the connection opens, [name()] reads the name attribute and always
    closes the connection before it checks the reply: it returns the reply's
    bytes as code points, raises [BluetoothBackendException] "Could not read
    NAME using handle 0x3 from Mi Temp sensor <mac>" when the reply is
    [None] or empty, and passes on a failure of the read.  The poller is not
    changed. *)
Theorem name_result :
  forall (be : Backend) (w : World),
  let n := List.length (trace w) in
  connect_reply be n = None ->
  exists r,
    name be w = (r, mkWorld (poller w)
                     (clock w + op_duration be n + op_duration be (S n)
                      + op_duration be (S (S n)))
                     (trace w ++ [ActConnect; ActRead _HANDLE_READ_NAME; ActDisconnect])) /\
    (forall bs, read_reply be (S n) _HANDLE_READ_NAME = Ok (Some bs) -> bs <> [] ->
       r = Ok (map byte_val bs)) /\
    (read_reply be (S n) _HANDLE_READ_NAME = Ok None \/
     read_reply be (S n) _HANDLE_READ_NAME = Ok (Some []) ->
       r = Exc (BluetoothBackendException
                  (str_of "Could not read NAME using handle 0x3 from Mi Temp sensor "
                   ++ _mac (poller w)))) /\
    (forall e, read_reply be (S n) _HANDLE_READ_NAME = Exc e -> r = Exc e).
Proof.
  intros be w n Hcon.
  unfold name, with_connection, read_handle, finally, io. run_monad.
  cbn [poller clock trace]. fold n. rewrite Hcon. cbn beta iota.
  cbn [poller clock trace]. rewrite !length_snoc. fold n.
  rewrite <- !app_assoc. cbn [app].
  destruct (read_reply be (S n) _HANDLE_READ_NAME) as [[bs|]|e] eqn:Er.
  - destruct bs as [|b bs].
    + eexists. split; [reflexivity|]. split; [intros bs' Hb Hne; injection Hb as <-; congruence|].
      split; [reflexivity | intros e He; discriminate He].
    + eexists. split; [reflexivity|]. split; [intros bs' Hb _; injection Hb as <-; reflexivity|].
      split; [intros [H|H]; discriminate H | intros e He; discriminate He].
  - eexists. split; [reflexivity|]. split; [intros bs' Hb; discriminate Hb|].
    split; [reflexivity | intros e He; discriminate He].
  - eexists. split; [reflexivity|]. split; [intros bs' Hb; discriminate Hb|].
    split; [intros [H|H]; discriminate H | intros e' He; injection He as <-; reflexivity].
Qed.

(** ** Properties every operation keeps *)

Section Keeps.
Variable P : MiTempBtPoller -> Prop.

Lemma keeps_ret : forall (A : Type) (a : A), keeps P (ret a).
Proof. intros A a w HP. exact HP. Qed.

Lemma keeps_raise : forall (A : Type) e, keeps P (raise (A := A) e).
Proof. intros A e w HP. exact HP. Qed.

Lemma keeps_lift : forall (A : Type) (r : result A), keeps P (lift r).
Proof. intros A r w HP. exact HP. Qed.

Lemma keeps_get_p : keeps P get_p.
Proof. intros w HP. exact HP. Qed.

Lemma keeps_now : keeps P now.
Proof. intros w HP. exact HP. Qed.

Lemma keeps_io : forall be a, keeps P (io be a).
Proof. intros be a w HP. exact HP. Qed.

Lemma keeps_modify : forall f, (forall p, P p -> P (f p)) -> keeps P (modify f).
Proof. intros f Hf w HP. apply Hf, HP. Qed.

Lemma keeps_bind : forall (A B : Type) (m : M A) (k : A -> M B),
  keeps P m -> (forall a, keeps P (k a)) -> keeps P (bind m k).
Proof.
  intros A B m k Hm Hk w HP. unfold bind. specialize (Hm w HP).
  destruct (m w) as [[a|e] w']; cbn [snd] in *; [apply Hk|]; exact Hm.
Qed.

Lemma keeps_finally : forall (A : Type) (m : M A) f,
  keeps P m -> keeps P f -> keeps P (finally m f).
Proof.
  intros A m f Hm Hf w HP. unfold finally. specialize (Hm w HP).
  destruct (m w) as [r w']. cbn [snd] in Hm. specialize (Hf w' Hm).
  destruct (f w') as [[u|e] w'']; exact Hf.
Qed.

Lemma keeps_try_bbe : forall (A : Type) (m : M A) h,
  keeps P m -> (forall msg, keeps P (h msg)) -> keeps P (try_bbe m h).
Proof.
  intros A m h Hm Hh w HP. unfold try_bbe. specialize (Hm w HP).
  destruct (m w) as [[a|[msg| | | | | |]] w']; cbn [snd] in *; try exact Hm.
  apply Hh, Hm.
Qed.

Lemma keeps_iter_m : forall (A : Type) (f : A -> M unit) l,
  (forall x, keeps P (f x)) -> keeps P (iter_m f l).
Proof.
  intros A f l Hf; induction l as [|x l IH]; cbn [iter_m];
    [apply keeps_ret | apply keeps_bind; [apply Hf | intros _; exact IH]].
Qed.

End Keeps.

Ltac keeps_step :=
  match goal with
  | |- keeps _ (bind _ _) => apply keeps_bind; [|intro; cbv beta]
  | |- keeps _ (ret _) => apply keeps_ret
  | |- keeps _ (raise _) => apply keeps_raise
  | |- keeps _ (lift _) => apply keeps_lift
  | |- keeps _ get_p => apply keeps_get_p
  | |- keeps _ now => apply keeps_now
  | |- keeps _ (io _ _) => apply keeps_io
  | |- keeps _ (finally _ _) => apply keeps_finally
  | |- keeps _ (try_bbe _ _) => apply keeps_try_bbe; [|intro]
  | |- keeps _ (iter_m _ _) => apply keeps_iter_m; intro
  | |- keeps _ (match ?x with _ => _ end) => destruct x
  | |- keeps _ (modify _) => apply keeps_modify; intros ? ?; assumption
  end.

(** The temperature/humidity part of the poller never touches
    [_fw_last_read], [_firmware_version] or [battery]. *)
Lemma handleNotification_keeps : forall (P : MiTempBtPoller -> Prop)
    (F : Type) (py_float : list Z -> option F) (float_gt : F -> Z -> bool)
    (up : Z -> bool) h raw,
  (forall c p, P p -> P (set_cache c p)) -> (forall t p, P p -> P (set_last_read t p)) ->
  keeps P (handleNotification F py_float float_gt up h raw).
Proof.
  intros P F pf fg up h raw Hc Hl.
  unfold handleNotification, _check_data, _parse_data, clear_cache, retry_in_5_minutes.
  repeat (keeps_step || (apply keeps_modify; intros; auto)).
Qed.

Lemma with_connection_keeps : forall (P : MiTempBtPoller -> Prop) be (A : Type) (body : M A),
  keeps P body -> keeps P (with_connection be body).
Proof.
  intros P be A body Hb. unfold with_connection.
  repeat keeps_step. exact Hb.
Qed.

Lemma firmware_version_keeps_fw_inv : forall be, keeps fw_inv (firmware_version be).
Proof.
  intros be w HP. unfold firmware_version, with_connection, read_handle, io, finally, py_ord.
  run_monad. split_matches; unfold fw_inv in *; cbn in *; try exact HP;
    intros _; discriminate.
Qed.

Section KeepsCache.
Variable P : MiTempBtPoller -> Prop.
Variables (F : Type) (py_float : list Z -> option F) (float_gt : F -> Z -> bool) (up : Z -> bool).
Variable be : Backend.
Hypothesis Hc : forall c p, P p -> P (set_cache c p).
Hypothesis Hl : forall t p, P p -> P (set_last_read t p).
Hypothesis Hfv : keeps P (firmware_version be).

Lemma fill_cache_keeps : keeps P (fill_cache F py_float float_gt up be).
Proof.
  unfold fill_cache, retry_in_5_minutes.
  apply keeps_bind; [|intros _; apply with_connection_keeps].
  - apply keeps_try_bbe; [apply keeps_bind; [exact Hfv|intros; apply keeps_ret]|intros msg].
    repeat (keeps_step || (apply keeps_modify; intros; auto)).
  - apply keeps_try_bbe; [|intros msg; repeat (keeps_step || (apply keeps_modify; intros; auto))].
    unfold wait_for_notification. apply keeps_bind; [apply keeps_io|intros n].
    destruct (wait_reply be n) as [notifs fail].
    apply keeps_bind; [apply keeps_iter_m; intros; apply handleNotification_keeps; assumption|].
    intros _; destruct fail; [apply keeps_raise|apply keeps_ret].
Qed.

Lemma parameter_value_body_keeps : forall prm rc,
  keeps P (parameter_value_body F py_float float_gt up be prm rc).
Proof.
  intros prm rc. unfold parameter_value_body, parameter_value_refresh, with_lock,
    parameter_value_serve, _parse_data.
  apply keeps_bind; [|intros _; repeat keeps_step].
  repeat keeps_step. apply fill_cache_keeps.
Qed.

Lemma battery_level_keeps : keeps P (battery_level be).
Proof. unfold battery_level. apply keeps_bind; [exact Hfv|intros _; repeat keeps_step]. Qed.

Lemma parameter_value_keeps : forall prm rc,
  keeps P (parameter_value F py_float float_gt up be prm rc).
Proof.
  intros prm rc. unfold parameter_value. apply keeps_bind; [apply keeps_lift|intros a].
  destruct (param_eqb prm a).
  - apply keeps_bind; [exact battery_level_keeps|intros; apply keeps_ret].
  - apply keeps_bind; [apply parameter_value_body_keeps|intros; apply keeps_ret].
Qed.

End KeepsCache.

Lemma name_keeps : forall P be, keeps P (name be).
Proof.
  intros P be. unfold name.
  apply keeps_bind; [apply with_connection_keeps; unfold read_handle|intro];
    repeat keeps_step.
Qed.

Lemma clear_cache_keeps : forall P : MiTempBtPoller -> Prop,
  (forall c p, P p -> P (set_cache c p)) -> (forall t p, P p -> P (set_last_read t p)) ->
  keeps P clear_cache.
Proof.
  intros P Hc Hl. unfold clear_cache.
  repeat (keeps_step || (apply keeps_modify; intros; auto)).
Qed.

(** In every state a program can reach from the constructor, a cached
    firmware version comes with its fetch time, so the comparison
    [datetime.now() - timedelta(hours=24) > self._fw_last_read] of
    [firmware_version] never meets [None]. *)
Theorem reachable_fw_inv :
  forall (F : Type) (py_float : list Z -> option F) (float_gt : F -> Z -> bool)
         (up : Z -> bool) (be : Backend) (w : World),
  reachable F py_float float_gt up be w -> fw_inv (poller w).
Proof.
  intros F pf fg up be w Hr.
  assert (Hfv : keeps fw_inv (firmware_version be)) by apply firmware_version_keeps_fw_inv.
  assert (Hc : forall c p, fw_inv p -> fw_inv (set_cache c p)) by (intros c p H; exact H).
  assert (Hl : forall t p, fw_inv p -> fw_inv (set_last_read t p)) by (intros t p H; exact H).
  induction Hr as [mac ttl t tr|w t Hr IH Ht|w Hr IH|w Hr IH|w Hr IH|w Hr IH
                  |h raw w Hr IH|prm rc w Hr IH|prm rc w Hr IH].
  - cbn. intros H. exfalso. apply H. reflexivity.
  - exact IH.
  - exact (Hfv w IH).
  - exact (battery_level_keeps fw_inv be Hfv w IH).
  - exact (name_keeps fw_inv be w IH).
  - exact (clear_cache_keeps fw_inv Hc Hl w IH).
  - exact (handleNotification_keeps fw_inv F pf fg up h raw Hc Hl w IH).
  - exact (parameter_value_keeps fw_inv F pf fg up be Hc Hl Hfv prm rc w IH).
  - exact (parameter_value_body_keeps fw_inv F pf fg up be Hc Hl Hfv prm rc w IH).
Qed.

(** ** More of the poller *)

Lemma firmware_version_keeps : forall (P : MiTempBtPoller -> Prop) be,
  (forall t p, P p -> P (set_fw_last_read t p)) ->
  (forall v p, P p -> P (set_firmware_version v p)) ->
  (forall b p, P p -> P (set_battery b p)) ->
  keeps P (firmware_version be).
Proof.
  intros P be H1 H2 H3. unfold firmware_version, read_handle, py_ord.
  repeat (keeps_step || apply with_connection_keeps
          || (apply keeps_modify; intros; auto)).
Qed.

Lemma battery_level_eq : forall be w,
  battery_level be w =
  (match fst (firmware_version be w) with
   | Ok _ => Ok (battery (poller (snd (firmware_version be w))))
   | Exc e => Exc e
   end, snd (firmware_version be w)).
Proof.
  intros be w. unfold battery_level, bind, get_p, ret.
  destruct (firmware_version be w) as [[v|e] w']; reflexivity.
Qed.

Lemma firmware_version_keeps_bat_inv : forall be, keeps bat_inv (firmware_version be).
Proof.
  intros be w HP. unfold firmware_version, with_connection, read_handle, io, finally, py_ord.
  run_monad. split_matches; unfold bat_inv in *; cbn in *; try exact HP;
    intros b' Hb; injection Hb as <-; first [apply byte_val_range|lia].
Qed.

(** [handleNotification] does no I/O and never raises a
    [BluetoothBackendException]: the [except BluetoothBackendException]
    around [wait_for_notification] in [fill_cache] never catches an error
    of the callback, and any exception it raises leaves [fill_cache]. *)
Theorem handleNotification_no_io_no_bbe :
  forall (F : Type) (py_float : list Z -> option F) (float_gt : F -> Z -> bool)
         (up : Z -> bool) (h : Z) (raw : option bytes) (w : World),
  is_bbe (fst (handleNotification F py_float float_gt up h raw w)) = false /\
  clock (snd (handleNotification F py_float float_gt up h raw w)) = clock w /\
  trace (snd (handleNotification F py_float float_gt up h raw w)) = trace w.
Proof.
  intros F pf fg up h raw w.
  unfold handleNotification, _check_data, _parse_data, clear_cache, retry_in_5_minutes.
  run_monad. split_matches; cbn; repeat split; try reflexivity;
    match goal with H : parse_data_str _ _ _ _ = Exc ?e |- _ =>
      destruct (parse_items_error _ _ _ _ _ (eq_trans (eq_sym (parse_data_str_filtered _ _ _ _)) H))
        as [-> | ->]; reflexivity end.
Qed.

(** When [handleNotification] returns normally on a payload, the payload
    was valid UTF-8 and the handler either kept it (stripped) as the cache
    with [_last_read] set to now, or dropped it ([cache_available()] is
    false) and set [_last_read] to now - cache_timeout + 300; nothing else
    changes. *)
Theorem handleNotification_ok_outcome :
  forall (F : Type) (py_float : list Z -> option F) (float_gt : F -> Z -> bool)
         (up : Z -> bool) (h : Z) (raw : bytes) (w : World),
  fst (handleNotification F py_float float_gt up h (Some raw) w) = Ok tt ->
  exists s, utf8_decode raw = Some s /\
    (snd (handleNotification F py_float float_gt up h (Some raw) w) =
       mkWorld (set_last_read (Some (clock w))
                  (set_cache (Some (py_strip [32; 10; 9] s)) (poller w)))
               (clock w) (trace w) \/
     snd (handleNotification F py_float float_gt up h (Some raw) w) =
       mkWorld (set_last_read (Some (clock w - _cache_timeout (poller w) + 300))
                  (set_cache None (poller w)))
               (clock w) (trace w)).
Proof.
  intros F pf fg up h raw w.
  unfold handleNotification, _check_data, _parse_data, clear_cache, retry_in_5_minutes.
  destruct (utf8_decode raw) as [s|] eqn:Hs; [|discriminate].
  run_monad. intros Hok. exists s. split; [reflexivity|].
  revert Hok. split_matches; cbn in *; intros Hok; try discriminate;
    first [left; reflexivity | right; reflexivity].
Qed.

(** In every reachable state a stored battery level lies in [0, 255] (the
    value of one byte, or 0), and so does every level [battery_level()]
    returns. *)
Theorem reachable_battery_range :
  forall (F : Type) (py_float : list Z -> option F) (float_gt : F -> Z -> bool)
         (up : Z -> bool) (be : Backend) (w : World),
  reachable F py_float float_gt up be w ->
  bat_inv (poller w) /\
  (forall b, fst (battery_level be w) = Ok (Some b) -> 0 <= b <= 255).
Proof.
  intros F pf fg up be w Hr.
  assert (Hfv : keeps bat_inv (firmware_version be)) by apply firmware_version_keeps_bat_inv.
  assert (Hc : forall c p, bat_inv p -> bat_inv (set_cache c p)) by (intros c p H; exact H).
  assert (Hl : forall t p, bat_inv p -> bat_inv (set_last_read t p)) by (intros t p H; exact H).
  assert (Hinv : forall w, reachable F pf fg up be w -> bat_inv (poller w)).
  { clear w Hr. intros w Hr.
    induction Hr as [mac ttl t tr|w t Hr IH Ht|w Hr IH|w Hr IH|w Hr IH|w Hr IH
                    |h raw w Hr IH|prm rc w Hr IH|prm rc w Hr IH].
    - intros b Hb. discriminate Hb.
    - exact IH.
    - exact (Hfv w IH).
    - exact (battery_level_keeps bat_inv be Hfv w IH).
    - exact (name_keeps bat_inv be w IH).
    - exact (clear_cache_keeps bat_inv Hc Hl w IH).
    - exact (handleNotification_keeps bat_inv F pf fg up h raw Hc Hl w IH).
    - exact (parameter_value_keeps bat_inv F pf fg up be Hc Hl Hfv prm rc w IH).
    - exact (parameter_value_body_keeps bat_inv F pf fg up be Hc Hl Hfv prm rc w IH). }
  split; [exact (Hinv w Hr)|].
  intros b Hb. rewrite battery_level_eq in Hb. cbn [fst] in Hb.
  pose proof (Hinv _ (reach_firmware_version F pf fg up be w Hr)) as Hw'.
  destruct (fst (firmware_version be w)); [|discriminate Hb].
  injection Hb as Hb. apply Hw'. exact Hb.
Qed.

(** Within 24 hours of the last firmware fetch, [battery_level()] returns
    the stored level without any I/O and changes nothing. *)
Theorem battery_level_not_due :
  forall (be : Backend) (w : World) (v : list Z) (l : Z),
  _firmware_version (poller w) = Some v ->
  _fw_last_read (poller w) = Some l ->
  clock w - 86400 <= l ->
  battery_level be w = (Ok (battery (poller w)), w).
Proof.
  intros be w v l Hv Hl Ht. unfold battery_level, firmware_version. run_monad.
  rewrite Hv. cbn beta iota. rewrite Hl. cbn beta iota.
  replace (l <? clock w - 86400) with false by (symmetry; apply Z.ltb_ge; lia).
  reflexivity.
Qed.

(** [self._fw_last_read] is stamped before the connection is opened: when
    a due fetch fails to connect, the exception propagates, the old
    firmware version stays, and every call in the next 24 hours serves it
    without trying again. *)
Theorem firmware_failed_fetch_postpones :
  forall (be : Backend) (w : World) (v : list Z) (l : Z) (msg : list Z),
  _firmware_version (poller w) = Some v ->
  _fw_last_read (poller w) = Some l ->
  l < clock w - 86400 ->
  connect_reply be (List.length (trace w)) = Some msg ->
  let p1 := set_fw_last_read (Some (clock w)) (poller w) in
  firmware_version be w =
    (Exc (BluetoothBackendException msg),
     mkWorld p1 (clock w + op_duration be (List.length (trace w))) (trace w ++ [ActConnect])) /\
  (forall (be' : Backend) (t : Z) (tr : list action), t - 86400 <= clock w ->
     firmware_version be' (mkWorld p1 t tr) = (Ok (Some v), mkWorld p1 t tr)).
Proof.
  intros be w v l msg Hv Hl Hlt Hc p1. split.
  - unfold firmware_version, with_connection, io. run_monad.
    rewrite Hv. cbn beta iota. rewrite Hl. cbn beta iota.
    replace (l <? clock w - 86400) with true by (symmetry; apply Z.ltb_lt; lia).
    cbn beta iota. cbn [poller clock trace]. rewrite Hc. reflexivity.
  - intros be' t tr Ht. unfold firmware_version. run_monad.
    cbn [p1 set_fw_last_read _firmware_version _fw_last_read]. rewrite Hv. cbn beta iota.
    cbn [clock].
    replace (clock w <? t - 86400) with false by (symmetry; apply Z.ltb_ge; lia).
    reflexivity.
Qed.

(** After the retry window is set at time [t] ([retry_in_5_minutes]), the
    staleness test of [parameter_value] passes exactly at times later than
    [t + 300], whatever [cache_timeout] is. *)
Theorem retry_window_300 :
  forall (w : World) (t' : Z),
  cache_expired true (poller (snd (retry_in_5_minutes w))) t' = (clock w + 300 <? t').
Proof.
  intros w t'. unfold retry_in_5_minutes. run_monad. unfold cache_expired. cbn.
  destruct (clock w + 300 <? t') eqn:E;
    [apply Z.ltb_lt in E | apply Z.ltb_ge in E];
    [apply Z.ltb_lt | apply Z.ltb_ge]; lia.
Qed.

(** No method changes the MAC address or the cache timeout given to the
    constructor. *)
Theorem methods_keep_mac_and_timeout :
  forall (F : Type) (py_float : list Z -> option F) (float_gt : F -> Z -> bool)
         (up : Z -> bool) (be : Backend) (mac : list Z) (ttl : Z),
  let P := fun p => _mac p = mac /\ _cache_timeout p = ttl in
  keeps P (firmware_version be) /\ keeps P (battery_level be) /\ keeps P (name be) /\
  keeps P clear_cache /\
  (forall h raw, keeps P (handleNotification F py_float float_gt up h raw)) /\
  (forall prm rc, keeps P (parameter_value F py_float float_gt up be prm rc)) /\
  (forall prm rc, keeps P (parameter_value_body F py_float float_gt up be prm rc)).
Proof.
  intros F pf fg up be mac ttl P.
  assert (Hfv : keeps P (firmware_version be))
    by (apply firmware_version_keeps; intros; exact H).
  assert (Hc : forall c p, P p -> P (set_cache c p)) by (intros c p H; exact H).
  assert (Hl : forall t p, P p -> P (set_last_read t p)) by (intros t p H; exact H).
  split; [exact Hfv|]. split; [exact (battery_level_keeps P be Hfv)|].
  split; [apply name_keeps|]. split; [exact (clear_cache_keeps P Hc Hl)|].
  split; [intros; apply handleNotification_keeps; assumption|].
  split; intros prm rc;
    [apply parameter_value_keeps | apply parameter_value_body_keeps]; assumption.
Qed.

(** ** The decoded dict *)

Lemma param_eqb_eq : forall a b, param_eqb a b = true <-> a = b.
Proof. intros [] []; split; intros H; try reflexivity; discriminate H. Qed.

Lemma dict_set_keys : forall (F : Type) k (v : F) d k',
  In k' (map fst (dict_set F k v d)) -> k' = k \/ In k' (map fst d).
Proof.
  intros F k v d k'; induction d as [|[k0 v0] d IH]; cbn [dict_set map fst]; intros Hin.
  - destruct Hin as [->|[]]; left; reflexivity.
  - destruct (param_eqb k k0) eqn:E.
    + apply param_eqb_eq in E; subst k0. cbn [map fst] in Hin.
      destruct Hin as [->|Hin]; [left|right; right]; auto.
    + cbn [map fst] in Hin. destruct Hin as [->|Hin]; [right; left; reflexivity|].
      destruct (IH Hin) as [->|Hin']; [left; reflexivity|right; right; exact Hin'].
Qed.

Lemma dict_set_nodup : forall (F : Type) k (v : F) d,
  NoDup (map fst d) -> NoDup (map fst (dict_set F k v d)).
Proof.
  intros F k v d; induction d as [|[k0 v0] d IH]; cbn [dict_set map fst]; intros Hnd.
  - constructor; [intros []|constructor].
  - inversion Hnd as [|x l Hnin Hnd']; subst.
    destruct (param_eqb k k0) eqn:E.
    + apply param_eqb_eq in E; subst k0. constructor; assumption.
    + cbn [map fst]. constructor; [|apply IH, Hnd'].
      intros Hin. destruct (dict_set_keys F k v d k0 Hin) as [->|Hin'].
      * destruct k; discriminate E.
      * exact (Hnin Hin').
Qed.

Lemma dict_get_set : forall (F : Type) k (v : F) d, dict_get F k (dict_set F k v d) = Some v.
Proof.
  intros F k v d; induction d as [|[k0 v0] d IH]; cbn [dict_set dict_get].
  - destruct k; reflexivity.
  - destruct (param_eqb k k0) eqn:E; cbn [dict_get].
    + destruct k; reflexivity.
    + rewrite E. exact IH.
Qed.


Lemma parse_items_th : forall (F : Type) (py_float : list Z -> option F) res l d,
  th_dict res -> parse_items F py_float res l = Ok d -> th_dict d.
Proof.
  intros F pf res l; revert res; induction l as [|tok l IH]; intros res d Hres H;
    cbn [parse_items] in H.
  - injection H as <-. exact Hres.
  - destruct (parse_item F pf res tok) as [res'|e] eqn:E; [|discriminate H].
    apply (IH res'); [|exact H].
    unfold parse_item in E.
    destruct (py_split 61 tok) as [|part0 rest]; [discriminate E|].
    destruct Hres as [Hnd Hk].
    destruct (str_eqb part0 (str_of "T")); [|destruct (str_eqb part0 (str_of "H"))];
      try (injection E as <-; split; assumption);
      (destruct rest as [|x r]; [discriminate E|]);
      (destruct (pf x) as [y|]; [|discriminate E]); injection E as <-;
      (split; [apply dict_set_nodup, Hnd|]);
      intros k Hin; destruct (dict_set_keys F _ y res k Hin) as [->|Hin'];
      auto.
Qed.

(** A successful [_parse_data] returns a dict whose keys are distinct and
    are only [TEMPERATURE] and [HUMIDITY]: never [BATTERY]. *)
Theorem parse_data_str_keys :
  forall (F : Type) (py_float : list Z -> option F) (up : Z -> bool) (data : list Z)
         (d : pydict F),
  parse_data_str F py_float up data = Ok d -> th_dict d.
Proof.
  intros F pf up data d H. unfold parse_data_str in H.
  refine (parse_items_th F pf [] _ d _ H).
  split; [constructor|intros k []].
Qed.

(** Tokens whose key is neither [T] nor [H] are skipped: a payload made
    only of such tokens decodes to the empty dict. *)
Theorem parse_data_str_unrecognized :
  forall (F : Type) (py_float : list Z -> option F) (up : Z -> bool) (data : list Z),
  forallb unrecognized (py_split 32 (filter (py_isprintable up) data)) = true ->
  parse_data_str F py_float up data = Ok [].
Proof.
  intros F pf up data H. rewrite parse_data_str_filtered.
  apply parse_items_unrecognized, H.
Qed.

(** Decoding depends only on the printable characters of the payload:
    NULs and other non-printable characters anywhere are dropped. *)
Theorem parse_data_str_nonprintable :
  forall (F : Type) (py_float : list Z -> option F) (up : Z -> bool) (s1 s2 : list Z),
  filter (py_isprintable up) s1 = filter (py_isprintable up) s2 ->
  parse_data_str F py_float up s1 = parse_data_str F py_float up s2.
Proof.
  intros F pf up s1 s2 H. rewrite !parse_data_str_filtered, H. reflexivity.
Qed.

(** The last [T=] or [H=] token wins: when the token list ends with
    [T=t] (or [H=h]) and decoding succeeds, the decoded temperature (or
    humidity) is [float(t)] (or [float(h)]). *)
Theorem parse_items_last_token_wins :
  forall (F : Type) (py_float : list Z -> option F) (res d : pydict F)
         (l : list (list Z)) (key : MiTempParameter) (k t : list Z),
  (key = TEMPERATURE /\ k = str_of "T=" \/ key = HUMIDITY /\ k = str_of "H=") ->
  has_char 61 t = false ->
  parse_items F py_float res (l ++ [k ++ t]) = Ok d ->
  exists x, py_float t = Some x /\ dict_get F key d = Some x.
Proof.
  intros F pf res d l key k t Hk Ht H. rewrite parse_items_app in H.
  destruct (parse_items F pf res l) as [r|e]; [|discriminate H].
  cbn [parse_items] in H.
  destruct Hk as [[-> ->]|[-> ->]].
  - rewrite (parse_item_T F pf r t Ht) in H.
    destruct (pf t) as [x|]; [|discriminate H]. injection H as <-.
    exists x. split; [reflexivity|apply dict_get_set].
  - rewrite (parse_item_H F pf r t Ht) in H.
    destruct (pf t) as [x|]; [|discriminate H]. injection H as <-.
    exists x. split; [reflexivity|apply dict_get_set].
Qed.

(** ** Instances of the properties above *)

Lemma format_bytes_injective_witness :
  _format_bytes (Some docstring_payload) = _format_bytes (Some docstring_payload) /\
  Some docstring_payload = Some docstring_payload.
Proof.
  split; [reflexivity|].
  apply (format_bytes_injective (Some docstring_payload) (Some docstring_payload)).
  reflexivity.
Defined.

Lemma name_result_witness :
  connect_reply quiet_backend 0 = None /\
  fst (name quiet_backend (mkWorld (init_poller (str_of "AA") 600) 0 [])) =
  Exc (BluetoothBackendException
         (str_of "Could not read NAME using handle 0x3 from Mi Temp sensor AA")).
Proof.
  split; [reflexivity|].
  destruct (name_result quiet_backend (mkWorld (init_poller (str_of "AA") 600) 0 []) eq_refl)
    as [r [Hr [_ [Hn _]]]].
  rewrite Hr. cbn [fst]. rewrite Hn by (left; reflexivity). reflexivity.
Defined.

Lemma reachable_fw_inv_witness :
  reachable Q dec_float q_gt all_printable battery_200_backend
    (snd (firmware_version battery_200_backend (mkWorld (init_poller [] 600) 0 []))) /\
  _firmware_version (poller (snd (firmware_version battery_200_backend
                                    (mkWorld (init_poller [] 600) 0 [])))) = Some (str_of "1.0") /\
  fw_inv (poller (snd (firmware_version battery_200_backend (mkWorld (init_poller [] 600) 0 [])))).
Proof.
  split; [apply reach_firmware_version, reach_init|].
  split; [vm_compute; reflexivity|].
  apply (reachable_fw_inv Q dec_float q_gt all_printable battery_200_backend).
  apply reach_firmware_version, reach_init.
Defined.

Lemma handleNotification_ok_outcome_witness :
  fst (handleNotification Q dec_float q_gt all_printable _HANDLE_READ_WRITE_SENSOR_DATA
         (Some docstring_payload) (mkWorld (init_poller [] 600) 5 [])) = Ok tt /\
  exists s, utf8_decode docstring_payload = Some s /\
    (snd (handleNotification Q dec_float q_gt all_printable _HANDLE_READ_WRITE_SENSOR_DATA
            (Some docstring_payload) (mkWorld (init_poller [] 600) 5 [])) =
       mkWorld (set_last_read (Some 5) (set_cache (Some (py_strip [32; 10; 9] s))
                                         (init_poller [] 600))) 5 [] \/
     snd (handleNotification Q dec_float q_gt all_printable _HANDLE_READ_WRITE_SENSOR_DATA
            (Some docstring_payload) (mkWorld (init_poller [] 600) 5 [])) =
       mkWorld (set_last_read (Some (5 - 600 + 300)) (set_cache None (init_poller [] 600))) 5 []).
Proof.
  split; [vm_compute; reflexivity|].
  apply (handleNotification_ok_outcome Q dec_float q_gt all_printable
           _HANDLE_READ_WRITE_SENSOR_DATA docstring_payload (mkWorld (init_poller [] 600) 5 [])).
  vm_compute; reflexivity.
Defined.

Lemma reachable_battery_range_witness :
  reachable Q dec_float q_gt all_printable battery_200_backend
    (snd (firmware_version battery_200_backend (mkWorld (init_poller [] 600) 0 []))) /\
  fst (battery_level battery_200_backend
         (snd (firmware_version battery_200_backend (mkWorld (init_poller [] 600) 0 []))))
    = Ok (Some 200) /\
  (bat_inv (poller (snd (firmware_version battery_200_backend (mkWorld (init_poller [] 600) 0 [])))) /\
   forall b, fst (battery_level battery_200_backend
                    (snd (firmware_version battery_200_backend (mkWorld (init_poller [] 600) 0 []))))
             = Ok (Some b) -> 0 <= b <= 255).
Proof.
  split; [apply reach_firmware_version, reach_init|].
  split; [vm_compute; reflexivity|].
  apply (reachable_battery_range Q dec_float q_gt all_printable battery_200_backend).
  apply reach_firmware_version, reach_init.
Defined.

Lemma battery_level_not_due_witness :
  _firmware_version fetched_poller = Some (str_of "1.0") /\
  _fw_last_read fetched_poller = Some 0 /\
  1000 - 86400 <= 0 /\
  battery_level read_failure_backend (mkWorld fetched_poller 1000 []) =
    (Ok (Some 50), mkWorld fetched_poller 1000 []).
Proof.
  split; [reflexivity|]. split; [reflexivity|]. split; [lia|].
  refine (battery_level_not_due read_failure_backend (mkWorld fetched_poller 1000 [])
            (str_of "1.0") 0 eq_refl eq_refl _).
  cbn [clock]. lia.
Defined.

Lemma firmware_failed_fetch_postpones_witness :
  _firmware_version fetched_poller = Some (str_of "1.0") /\
  _fw_last_read fetched_poller = Some 0 /\
  0 < 100000 - 86400 /\
  connect_reply connect_failure_backend 0 = Some (str_of "connect failed") /\
  firmware_version connect_failure_backend (mkWorld fetched_poller 100000 []) =
    (Exc (BluetoothBackendException (str_of "connect failed")),
     mkWorld (set_fw_last_read (Some 100000) fetched_poller) 100000 [ActConnect]) /\
  firmware_version battery_200_backend
    (mkWorld (set_fw_last_read (Some 100000) fetched_poller) 150000 []) =
    (Ok (Some (str_of "1.0")),
     mkWorld (set_fw_last_read (Some 100000) fetched_poller) 150000 []).
Proof.
  split; [reflexivity|]. split; [reflexivity|]. split; [lia|]. split; [reflexivity|].
  assert (Hlt : 0 < clock (mkWorld fetched_poller 100000 []) - 86400) by (cbn [clock]; lia).
  destruct (firmware_failed_fetch_postpones connect_failure_backend
              (mkWorld fetched_poller 100000 []) (str_of "1.0") 0 (str_of "connect failed")
              eq_refl eq_refl Hlt eq_refl) as [H1 H2].
  split; [exact H1|].
  apply H2. cbn [clock]. lia.
Defined.

Lemma parse_data_str_keys_witness :
  parse_data_str Q dec_float all_printable (str_of "T=25.6 H=23.6 T=1")
    = Ok [(TEMPERATURE, 1 # 1); (HUMIDITY, 236 # 10)] /\
  th_dict [(TEMPERATURE, 1 # 1); (HUMIDITY, 236 # 10)].
Proof.
  split; [vm_compute; reflexivity|].
  apply (parse_data_str_keys Q dec_float all_printable (str_of "T=25.6 H=23.6 T=1")).
  vm_compute; reflexivity.
Defined.

Lemma parse_data_str_unrecognized_witness :
  forallb unrecognized
    (py_split 32 (filter (py_isprintable all_printable) (str_of "V=3.0 Tx=1" ++ [0]))) = true /\
  parse_data_str Q dec_float all_printable (str_of "V=3.0 Tx=1" ++ [0]) = Ok [].
Proof.
  split; [vm_compute; reflexivity|].
  apply parse_data_str_unrecognized. vm_compute; reflexivity.
Defined.

Lemma parse_data_str_nonprintable_witness :
  filter (py_isprintable all_printable) (str_of "T=2" ++ [0; 7] ++ str_of "5.6") =
  filter (py_isprintable all_printable) (str_of "T=25.6") /\
  parse_data_str Q dec_float all_printable (str_of "T=2" ++ [0; 7] ++ str_of "5.6") =
  parse_data_str Q dec_float all_printable (str_of "T=25.6").
Proof.
  split; [vm_compute; reflexivity|].
  apply parse_data_str_nonprintable. vm_compute; reflexivity.
Defined.

Lemma parse_items_last_token_wins_witness :
  has_char 61 (str_of "25.6") = false /\
  parse_items Q dec_float [] ([str_of "T=1"; str_of "H=2"] ++ [str_of "T=" ++ str_of "25.6"])
    = Ok [(TEMPERATURE, 256 # 10); (HUMIDITY, 2 # 1)] /\
  exists x, dec_float (str_of "25.6") = Some x /\
    dict_get Q TEMPERATURE [(TEMPERATURE, 256 # 10); (HUMIDITY, 2 # 1)] = Some x.
Proof.
  split; [reflexivity|]. split; [vm_compute; reflexivity|].
  apply (parse_items_last_token_wins Q dec_float [] _ [str_of "T=1"; str_of "H=2"]
           TEMPERATURE (str_of "T=") (str_of "25.6")).
  - left; split; reflexivity.
  - reflexivity.
  - vm_compute; reflexivity.
Defined.
